(** * med-scribe: classification front end and decision logic

    Shallow embedding of the TypeScript front end of med-scribe
    (ui/frontend/src): the classification service, the classification
    store, the classification options control and the attribute-rule
    validators, together with the scoring and rule-evaluation engine of
    the classification back end, which is modelled from the spec. *)

From Stdlib Require Import String Ascii List Bool ZArith QArith Lia Permutation.
Import ListNotations.

Open Scope string_scope.
Set Warnings "-register-all".

(** ** JavaScript values and the string primitives the code uses *)
Module JS.

(** A value as it comes out of [JSON.parse] (plus [undefined]). *)
Inductive jsval : Type :=
| JUndef
| JNull
| JBool (b : bool)
| JNum (q : Q)
| JStr (s : string)
| JArr (l : list jsval)
| JObj (l : list (string * jsval)).

(** JavaScript truthiness; JSON numbers are finite, so the only falsy
    number is [0] (and [-0], the same rational). *)
Definition truthy (v : jsval) : bool :=
  match v with
  | JUndef | JNull => false
  | JBool b => b
  | JNum q => negb (Qeq_bool q 0)
  | JStr s => negb (String.eqb s "")
  | JArr _ | JObj _ => true
  end.

(** [a || b] *)
Definition js_or (a b : jsval) : jsval := if truthy a then a else b.

(** [o.k] and [o?.k] on a parsed JSON value. *)
Fixpoint assoc_get (l : list (string * jsval)) (k : string) : jsval :=
  match l with
  | [] => JUndef
  | (k', v) :: l' => if String.eqb k k' then v else assoc_get l' k
  end.

Definition js_get (o : jsval) (k : string) : jsval :=
  match o with
  | JObj l => assoc_get l k
  | _ => JUndef
  end.

(** Decimal rendering of a natural number, as template literals do. *)
Fixpoint digits_aux (fuel n : nat) (acc : string) : string :=
  match fuel with
  | O => acc
  | S fuel' =>
      let d := Nat.modulo n 10 in
      let acc' := String (ascii_of_nat (48 + d)) acc in
      if Nat.ltb n 10 then acc' else digits_aux fuel' (Nat.div n 10) acc'
  end.

Definition nat_to_string (n : nat) : string := digits_aux (S n) n "".

(** Object spread [{...v}]: own enumerable properties, in order. *)
Fixpoint index_keys {A} (i : nat) (l : list A) : list (string * A) :=
  match l with
  | [] => []
  | x :: l' => (nat_to_string i, x) :: index_keys (S i) l'
  end.

Fixpoint chars (s : string) : list jsval :=
  match s with
  | EmptyString => []
  | String c s' => JStr (String c EmptyString) :: chars s'
  end.

Definition spread (v : jsval) : list (string * jsval) :=
  match v with
  | JObj l => l
  | JArr l => index_keys 0 l
  | JStr s => index_keys 0 (chars s)
  | _ => []
  end.

(** Setting a property in an object literal after a spread: an existing
    key keeps its position and takes the new value. *)
Fixpoint set_prop (l : list (string * jsval)) (k : string) (v : jsval)
  : list (string * jsval) :=
  match l with
  | [] => [(k, v)]
  | (k', v') :: l' =>
      if String.eqb k k' then (k', v) :: l' else (k', v') :: set_prop l' k v
  end.

(** White space as [String.prototype.trim] and [/\s/] see it, over
    Latin-1 code units. *)
Definition is_ws (c : ascii) : bool :=
  let n := nat_of_ascii c in
  (Nat.leb 9 n && Nat.leb n 13) || Nat.eqb n 32 || Nat.eqb n 160.

Fixpoint trim_start (s : string) : string :=
  match s with
  | EmptyString => EmptyString
  | String c s' => if is_ws c then trim_start s' else s
  end.

Fixpoint rev_string (s : string) (acc : string) : string :=
  match s with
  | EmptyString => acc
  | String c s' => rev_string s' (String c acc)
  end.

Definition trim (s : string) : string :=
  rev_string (trim_start (rev_string (trim_start s) "")) "".

(** [toLowerCase] on Latin-1 code units. *)
Definition lower_char (c : ascii) : ascii :=
  let n := nat_of_ascii c in
  if (Nat.leb 65 n && Nat.leb n 90)
     || (Nat.leb 192 n && Nat.leb n 222 && negb (Nat.eqb n 215))
  then ascii_of_nat (n + 32) else c.

Fixpoint toLowerCase (s : string) : string :=
  match s with
  | EmptyString => EmptyString
  | String c s' => String (lower_char c) (toLowerCase s')
  end.

Fixpoint suffix_of (suf s : string) : bool :=
  String.eqb s suf ||
  match s with
  | EmptyString => false
  | String _ s' => suffix_of suf s'
  end.

(** [s.endsWith(suf)] *)
Definition endsWith (s suf : string) : bool := suffix_of suf s.

(** [s.replace(/\s+/g, '_')]: every maximal run of white space becomes
    one underscore. *)
Fixpoint replace_ws_runs (in_run : bool) (s : string) : string :=
  match s with
  | EmptyString => EmptyString
  | String c s' =>
      if is_ws c then
        (if in_run then replace_ws_runs true s'
         else String "_"%char (replace_ws_runs true s'))
      else String c (replace_ws_runs false s')
  end.

Definition replace_ws (s : string) : string := replace_ws_runs false s.

(** [!s?.trim()] for an optional string *)
Definition blank_opt (s : option string) : bool :=
  match s with
  | None => true
  | Some s => String.eqb (trim s) ""
  end.

End JS.

(** ** ClassificationService (services/classification-service.ts) *)
Module Service.
Import JS.

(** [ClassificationConfig] (types/classification.ts); the UI only ever
    stores integers in [topKCandidates]. *)
Record ClassificationConfig := {
  useReranking : bool;
  rerankingModel : option string;
  useAttributeValidation : bool;
  topKCandidates : Z
}.

Record ClassifyTextRequest := {
  text : option string;
  datasetId : option string;
  config : option ClassificationConfig
}.

(** A browser [File]: its name and its size in bytes. *)
Record File := { name : string; size : Z }.

Record ClassifyPDFRequest := {
  file : option File;
  pdfDatasetId : option string;
  pdfConfig : option ClassificationConfig
}.

(** [ApiError] (types/api.ts) *)
Record ApiError := {
  err_type : string;
  err_message : string;
  err_details : option string;
  err_recoverable : bool;
  err_suggestedAction : option string
}.

(** [ApiResponse<T>]; the ISO timestamp is left out of the model. *)
Record ApiResponse (T : Type) := {
  success : bool;
  data : option T;
  error : option ApiError
}.
Arguments success {T}.
Arguments data {T}.
Arguments error {T}.

(** [ErrorHandler.createValidationError(message, field)]: a plain object,
    not an [Error] instance. *)
Record ValidationError := { verr_message : string; verr_field : string }.

Definition createValidationError (m f : string) : ValidationError :=
  {| verr_message := m; verr_field := f |}.

(** What a [catch] clause of the service can receive. *)
Inductive Thrown :=
| ThrownError (message : string)        (* an [Error] instance *)
| ThrownString (s : string)
| ThrownValidation (e : ValidationError). (* a thrown plain object *)

(** [ErrorHandler.fromUnknown(error).message] *)
Definition fromUnknown_message (t : Thrown) : string :=
  match t with
  | ThrownError m => m
  | ThrownString s => s
  | ThrownValidation _ => "An unexpected error occurred"
  end.

(** The request bodies the service sends to the back end. *)
Record ConfigPayload := {
  use_reranking : bool;
  reranking_model : string;
  use_attribute_validation : bool;
  top_k_candidates : Z
}.

Inductive Payload :=
| PostText (endpoint : string) (txt : option string) (dataset_id : option string)
    (cfg : ConfigPayload)
| UploadPDF (endpoint : string) (f : option File) (dataset_id : option string)
    (cfg : ConfigPayload).

Definition default_model : string := "us.amazon.nova-lite-v1:0".

(** [request.config.rerankingModel || 'us.amazon.nova-lite-v1:0'] *)
Definition model_or_default (m : option string) : string :=
  match m with
  | Some s => if String.eqb s "" then default_model else s
  | None => default_model
  end.

Definition config_payload (c : ClassificationConfig) : ConfigPayload :=
  {| use_reranking := useReranking c;
     reranking_model := model_or_default (rerankingModel c);
     use_attribute_validation := useAttributeValidation c;
     top_k_candidates := topKCandidates c |}.

(** The back end's classification result, as [response.data]. *)
Record BackendAlt := {
  alt_name : string;
  alt_description : jsval;
  alt_effective_score : jsval;
  alt_similarity_score : jsval;
  alt_rerank_score : jsval;
  alt_attribute_score : jsval
}.

Record BackendAttrValidation := {
  conditions_met : jsval;
  conditions_not_met : jsval;
  overall_score : jsval;
  evaluation_details : jsval
}.

Record BackendResult := {
  predicted_class_name : string;
  predicted_class_description : jsval;
  effective_score : jsval;
  similarity_score : jsval;
  rerank_score : jsval;
  attribute_score : jsval;
  attribute_validation : option BackendAttrValidation;
  alternatives : option (list BackendAlt);
  processing_time : jsval;
  metadata : jsval;
  pdf_metadata : jsval
}.

(** What [apiClient.post] / [apiClient.uploadFile] resolve to. *)
Inductive BackendResponse :=
| BFail (e : ApiError)
| BOk (r : BackendResult).

(** The front-end [ClassificationResult] (types/classification.ts). *)
Record ClassDefinition := {
  cd_id : string; cd_name : string; cd_description : jsval
}.

Record ClassificationScores := {
  sc_similarity : jsval; sc_rerank : jsval; sc_attribute : jsval
}.

Record ClassificationAlternative := {
  ca_class : ClassDefinition;
  ca_confidence : jsval;
  ca_scores : ClassificationScores
}.

Record AttributeValidationResult := {
  conditionsMet : jsval;
  conditionsNotMet : jsval;
  overallScore : jsval;
  details : jsval;
  evaluationTree : jsval
}.

Record ClassificationResult := {
  predictedClass : ClassDefinition;
  confidence : jsval;
  similarityScore : jsval;
  rerankScore : jsval;
  attributeScore : jsval;
  attributeValidation : option AttributeValidationResult;
  res_alternatives : list ClassificationAlternative;
  processingTime : jsval;
  res_metadata : jsval
}.

(** [name.toLowerCase().replace(/\s+/g, '_')] *)
Definition class_id (n : string) : string := replace_ws (toLowerCase n).

Definition transform_alt (alt : BackendAlt) : ClassificationAlternative :=
  {| ca_class := {| cd_id := class_id (alt_name alt);
                    cd_name := alt_name alt;
                    cd_description := js_or (alt_description alt)
                                        (JStr "Alternative classification") |};
     ca_confidence := js_or (js_or (alt_effective_score alt)
                                   (alt_similarity_score alt)) (JNum 0);
     ca_scores := {| sc_similarity := js_or (alt_similarity_score alt) (JNum 0);
                     sc_rerank := alt_rerank_score alt;
                     sc_attribute := alt_attribute_score alt |} |}.

Definition transform_validation (av : BackendAttrValidation)
  : AttributeValidationResult :=
  {| conditionsMet := js_or (conditions_met av) (JArr []);
     conditionsNotMet := js_or (conditions_not_met av) (JArr []);
     overallScore := js_or (overall_score av) (JNum 0);
     details := js_or (evaluation_details av) (JObj []);
     evaluationTree := js_get (evaluation_details av) "evaluation_tree" |}.

(** The object literal built by [classifyText] (lines 47-79) and by
    [classifyPDF] (lines 134-169); they differ only in [metadata]. *)
Definition transform_with (meta : jsval) (b : BackendResult)
  : ClassificationResult :=
  {| predictedClass := {| cd_id := class_id (predicted_class_name b);
                          cd_name := predicted_class_name b;
                          cd_description := predicted_class_description b |};
     confidence := js_or (js_or (effective_score b) (similarity_score b)) (JNum 0);
     similarityScore := js_or (similarity_score b) (JNum 0);
     rerankScore := rerank_score b;
     attributeScore := attribute_score b;
     attributeValidation := option_map transform_validation (attribute_validation b);
     res_alternatives := map transform_alt
                           (match alternatives b with Some l => l | None => [] end);
     processingTime := processing_time b;
     res_metadata := meta |}.

Definition text_result (b : BackendResult) : ClassificationResult :=
  transform_with (js_or (metadata b) (JObj [])) b.

Definition pdf_result (b : BackendResult) : ClassificationResult :=
  transform_with (JObj (set_prop (spread (metadata b)) "pdf_metadata" (pdf_metadata b))) b.

(** [validateTextRequest]: [None] when it returns, [Some e] when it
    throws [e]. *)
Definition validateTextRequest (r : ClassifyTextRequest) : option ValidationError :=
  if blank_opt (text r) then
    Some (createValidationError "Text content is required" "text")
  else if blank_opt (datasetId r) then
    Some (createValidationError "Dataset ID is required" "datasetId")
  else match config r with
       | None => Some (createValidationError "Configuration is required" "config")
       | Some c =>
           if (topKCandidates c <? 1)%Z || (topKCandidates c >? 100)%Z then
             Some (createValidationError "Top K candidates must be between 1 and 100"
                     "config.topKCandidates")
           else None
       end.

(** [validatePDFFile] *)
Definition maxSize : Z := 50 * 1024 * 1024.

Definition validatePDFFile (f : option File) : option ValidationError :=
  match f with
  | None => Some (createValidationError "PDF file is required" "file")
  | Some f =>
      if negb (endsWith (toLowerCase (name f)) ".pdf") then
        Some (createValidationError "Only PDF files are supported" "file")
      else if (size f >? maxSize)%Z then
        Some (createValidationError "PDF file size must be less than 50MB" "file")
      else if (size f =? 0)%Z then
        Some (createValidationError "PDF file cannot be empty" "file")
      else None
  end.

(** [validatePDFRequest] *)
Definition validatePDFRequest (r : ClassifyPDFRequest) : option ValidationError :=
  match validatePDFFile (file r) with
  | Some e => Some e
  | None =>
      if blank_opt (pdfDatasetId r) then
        Some (createValidationError "Dataset ID is required" "datasetId")
      else match pdfConfig r with
           | None => Some (createValidationError "Configuration is required" "config")
           | Some _ => None
           end
  end.

(** The [catch] blocks of [classifyText] and [classifyPDF]. *)
Definition caught (msg action : string) (t : Thrown)
  : ApiResponse ClassificationResult :=
  {| success := false; data := None;
     error := Some {| err_type := "processing";
                      err_message := msg;
                      err_details := Some (fromUnknown_message t);
                      err_recoverable := true;
                      err_suggestedAction := Some action |} |}.

Definition text_caught :=
  caught "Classification failed" "Please check your input and try again.".

Definition pdf_caught :=
  caught "PDF classification failed" "Please check your PDF file and try again.".

(** Reading [request.config.useReranking] with no config throws a
    [TypeError]; validation rejects such requests first. *)
Definition no_config_error : Thrown :=
  ThrownError "Cannot read properties of undefined (reading 'useReranking')".

(** [classifyText]: the back end is the function [post] answering each
    request body; the first component lists the bodies sent. *)
Definition classifyText (post : Payload -> BackendResponse) (r : ClassifyTextRequest)
  : list Payload * ApiResponse ClassificationResult :=
  match validateTextRequest r with
  | Some e => ([], text_caught (ThrownValidation e))
  | None =>
      match config r with
      | None => ([], text_caught no_config_error)
      | Some c =>
          let p := PostText "/classify/text" (text r) (datasetId r) (config_payload c) in
          match post p with
          | BFail e => ([p], {| success := false; data := None; error := Some e |})
          | BOk b => ([p], {| success := true; data := Some (text_result b); error := None |})
          end
      end
  end.

(** [classifyPDF] *)
Definition classifyPDF (upload : Payload -> BackendResponse) (r : ClassifyPDFRequest)
  : list Payload * ApiResponse ClassificationResult :=
  match validatePDFRequest r with
  | Some e => ([], pdf_caught (ThrownValidation e))
  | None =>
      match pdfConfig r with
      | None => ([], pdf_caught no_config_error)
      | Some c =>
          let p := UploadPDF "/classify/pdf" (file r) (pdfDatasetId r) (config_payload c) in
          match upload p with
          | BFail e => ([p], {| success := false; data := None; error := Some e |})
          | BOk b => ([p], {| success := true; data := Some (pdf_result b); error := None |})
          end
      end
  end.
End Service.

(** ** Classification store (stores/classification-store.ts) *)
Module Store.
Import JS Service.

(** The [AppError] objects the store builds in its [catch] blocks. *)
Record AppError := {
  app_type : string; app_code : string; app_message : string; app_details : string
}.

(** [ClassificationState]; [null] and [undefined] results are both [None]. *)
Record State := {
  currentResult : option ClassificationResult;
  resultHistory : list (option ClassificationResult);
  st_config : ClassificationConfig;
  isClassifying : bool;
  st_error : option AppError
}.

Definition defaultConfig : ClassificationConfig :=
  {| useReranking := false; rerankingModel := Some "us.amazon.nova-lite-v1:0";
     useAttributeValidation := false; topKCandidates := 5 |}.

Definition initial : State :=
  {| currentResult := None; resultHistory := []; st_config := defaultConfig;
     isClassifying := false; st_error := None |}.

(** [setCurrentResult], [addToHistory], [clearHistory] *)
Definition setCurrentResult (r : option ClassificationResult) (s : State) : State :=
  {| currentResult := r; resultHistory := resultHistory s; st_config := st_config s;
     isClassifying := isClassifying s; st_error := st_error s |}.

Definition addToHistory (r : option ClassificationResult) (s : State) : State :=
  {| currentResult := currentResult s;
     resultHistory := firstn 50 (r :: resultHistory s);
     st_config := st_config s; isClassifying := isClassifying s; st_error := st_error s |}.

Definition clearHistory (s : State) : State :=
  {| currentResult := currentResult s; resultHistory := []; st_config := st_config s;
     isClassifying := isClassifying s; st_error := st_error s |}.

Definition set_flags (busy : bool) (e : option AppError) (s : State) : State :=
  {| currentResult := currentResult s; resultHistory := resultHistory s;
     st_config := st_config s; isClassifying := busy; st_error := e |}.

(** Outcome of an [async] action: the value it resolves to or the error it
    rejects with. *)
Inductive Outcome :=
| Resolved (r : option ClassificationResult)
| Rejected (e : AppError).

(** The shared body of [classifyText] and [classifyPDF] of the store,
    given the service's response (the PDF metadata side effect on
    [pdfExtractionResult] is not modelled). *)
Definition store_classify (code msg fallback : string)
    (resp : ApiResponse ClassificationResult) (s : State) : State * Outcome :=
  let s1 := set_flags true None s in
  if success resp then
    let result := data resp in
    let s2 := set_flags false (st_error s1) (setCurrentResult result s1) in
    (addToHistory result s2, Resolved result)
  else
    let m := match error resp with
             | Some e => if String.eqb (err_message e) "" then fallback else err_message e
             | None => fallback
             end in
    let e := {| app_type := "processing"; app_code := code;
                app_message := msg; app_details := m |} in
    (set_flags false (Some e) s1, Rejected e).

(** [useClassificationStore.getState().classifyText(request)] *)
Definition classifyText (post : Payload -> BackendResponse) (r : ClassifyTextRequest)
    (s : State) : State * Outcome :=
  store_classify "CLASSIFICATION_FAILED" "Failed to classify text"
    "Classification failed" (snd (Service.classifyText post r)) s.

Definition classifyPDF (upload : Payload -> BackendResponse) (r : ClassifyPDFRequest)
    (s : State) : State * Outcome :=
  store_classify "PDF_CLASSIFICATION_FAILED" "Failed to classify PDF"
    "PDF classification failed" (snd (Service.classifyPDF upload r)) s.
End Store.

(** ** ClassificationOptions control (components/classification/ClassificationOptions.tsx) *)
Module Options.
Import Service.

Definition with_topK (c : ClassificationConfig) (k : Z) : ClassificationConfig :=
  {| useReranking := useReranking c; rerankingModel := rerankingModel c;
     useAttributeValidation := useAttributeValidation c; topKCandidates := k |}.

(** [handleTopKChange(value)]: the config handed to [onConfigChange]. *)
Definition handleTopKChange (c : ClassificationConfig) (value : Z) : ClassificationConfig :=
  with_topK c (Z.max 1 (Z.min 20 value)).

(** The other ways the control calls [onConfigChange]. *)
Inductive Event :=
| ToggleReranking (availableModels : list string)
| ToggleAttributeValidation (attributesExist : bool)
| RerankingModelChange (modelId : string)
| TopKChange (value : Z)
| DisableAttributeValidation. (* the [useEffect] on dataset changes *)

Definition handle (c : ClassificationConfig) (ev : Event) : option ClassificationConfig :=
  match ev with
  | ToggleReranking models =>
      Some {| useReranking := negb (useReranking c);
              rerankingModel := if useReranking c then rerankingModel c
                                else hd_error models;
              useAttributeValidation := useAttributeValidation c;
              topKCandidates := topKCandidates c |}
  | ToggleAttributeValidation attrs_exist =>
      if negb (useAttributeValidation c) && negb attrs_exist then None
      else Some {| useReranking := useReranking c; rerankingModel := rerankingModel c;
                   useAttributeValidation := negb (useAttributeValidation c);
                   topKCandidates := topKCandidates c |}
  | RerankingModelChange m =>
      Some {| useReranking := useReranking c; rerankingModel := Some m;
              useAttributeValidation := useAttributeValidation c;
              topKCandidates := topKCandidates c |}
  | TopKChange v => Some (handleTopKChange c v)
  | DisableAttributeValidation =>
      if useAttributeValidation c then
        Some {| useReranking := useReranking c; rerankingModel := rerankingModel c;
                useAttributeValidation := false; topKCandidates := topKCandidates c |}
      else None
  end.
End Options.

(** ** Attribute rules and their validation (types/index.ts,
    services/dataset-service.ts, components/attributes/AttributeEditor.tsx) *)
Module Rules.
Import JS.

(** List concatenation; [++] is string concatenation here. *)
Local Infix "+++" := app (at level 60, right associativity).

(** [AttributeCondition]; optional chaining in the validators is why the
    fields are optional. *)
Record AttributeCondition := {
  cond_id : option string;
  description : option string;
  cond_type : option string
}.

(** An element of [AttributeRule.conditions]: a bare string, a condition
    object, or a nested rule (an object with an [operator] key). A whole
    [AttributeRule] is a [NestedRule]. *)
Inductive RuleItem :=
| CondString (s : string)
| CondObject (c : AttributeCondition)
| NestedRule (operator : option string) (conditions : option (list RuleItem)).

Definition dq : string := String (ascii_of_nat 34) EmptyString.

Definition operator_error : string :=
  "Rule operator must be either " ++ dq ++ "AND" ++ dq ++ " or " ++ dq ++ "OR" ++ dq.

Definition empty_rule_error : string := "Rule must have at least one condition".

(** [errors.join(', ')] *)
Fixpoint join (sep : string) (l : list string) : string :=
  match l with
  | [] => ""
  | [x] => x
  | x :: l' => x ++ sep ++ join sep l'
  end.

(** [!rule.operator || !['AND', 'OR'].includes(rule.operator)] *)
Definition bad_operator (op : option string) : bool :=
  match op with
  | Some o => negb (String.eqb o "AND" || String.eqb o "OR")
  | None => true
  end.

(** [!rule.conditions || rule.conditions.length === 0] *)
Definition no_conditions (cs : option (list RuleItem)) : bool :=
  match cs with
  | Some (_ :: _) => false
  | _ => true
  end.

Definition opt_blank (s : option string) : bool := blank_opt s.

(** [DatasetService.validateAttributeCondition] (errors only) *)
Definition condition_errors (c : AttributeCondition) : list string :=
  (if opt_blank (cond_id c) then ["Condition ID is required"] else []) +++
  (if opt_blank (description c) then ["Condition description is required"] else []) +++
  (match cond_type c with
   | Some t => if String.eqb t "text_match" || String.eqb t "numeric_range"
                  || String.eqb t "boolean" || String.eqb t "custom" then []
               else ["Condition type must be one of: text_match, numeric_range, boolean, custom"]
   | None => ["Condition type must be one of: text_match, numeric_range, boolean, custom"]
   end) +++
  (match description c with
   | Some d => if Nat.ltb 200 (String.length d)
               then ["Condition description must be less than 200 characters"] else []
   | None => []
   end).

(** [list.forEach((x, index) => errors.push(...))], from index [i]. *)
Fixpoint flat_mapi {A B} (f : nat -> A -> list B) (i : nat) (l : list A) : list B :=
  match l with
  | [] => []
  | x :: l' => f i x +++ flat_mapi f (S i) l'
  end.

Definition label (what : string) (i : nat) : string :=
  what ++ " " ++ nat_to_string (S i) ++ ": ".

(** The [errors] array of [DatasetService.validateAttributeRule]; on a
    non-rule item there is nothing to check. *)
Fixpoint rule_errors (r : RuleItem) : list string :=
  match r with
  | NestedRule op cs =>
      (if bad_operator op then [operator_error] else []) +++
      (if no_conditions cs then [empty_rule_error] else []) +++
      match cs with
      | None => []
      | Some l =>
          flat_mapi (fun i c =>
            match c with
            | CondString s =>
                if String.eqb (trim s) "" then [label "Condition" i ++ "Cannot be empty"]
                else []
            | CondObject o =>
                match condition_errors o with
                | [] => []
                | es => [label "Condition" i ++ join ", " es]
                end
            | NestedRule _ _ =>
                match rule_errors c with
                | [] => []
                | es => [label "Nested rule" i ++ join ", " es]
                end
            end) 0%nat l
      end
  | _ => []
  end.

Record Validation := { isValid : bool; errors : list string }.

Definition validation_of (es : list string) : Validation :=
  {| isValid := match es with [] => true | _ => false end; errors := es |}.

(** [DatasetService.validateAttributeRule(rule)] *)
Definition validateAttributeRule (op : option string) (cs : option (list RuleItem))
  : Validation := validation_of (rule_errors (NestedRule op cs)).

(** [validateRule] of the attribute editor: the same checks, with its own
    messages for condition objects. *)
Fixpoint editor_errors (r : RuleItem) : list string :=
  match r with
  | NestedRule op cs =>
      (if bad_operator op then [operator_error] else []) +++
      (if no_conditions cs then [empty_rule_error] else []) +++
      match cs with
      | None => []
      | Some l =>
          flat_mapi (fun i c =>
            match c with
            | CondString s =>
                if String.eqb (trim s) "" then [label "Condition" i ++ "Cannot be empty"]
                else []
            | CondObject o =>
                (if opt_blank (cond_id o) then [label "Condition" i ++ "ID is required"]
                 else []) +++
                (if opt_blank (description o)
                 then [label "Condition" i ++ "Description is required"] else [])
            | NestedRule _ _ =>
                match editor_errors c with
                | [] => []
                | es => [label "Nested rule" i ++ join ", " es]
                end
            end) 0%nat l
      end
  | _ => []
  end.

Definition validateRule (op : option string) (cs : option (list RuleItem)) : Validation :=
  validation_of (editor_errors (NestedRule op cs)).
End Rules.

(** ** Decision logic of the classification back end

    The back end that evaluates rule trees and aggregates scores is not
    among this repository's TypeScript sources: only its result shape
    ([EvaluationTreeNode], types/index.ts) and its callers are.  Its
    behaviour is modelled from the spec (sections 4.1-4.3). *)
Module Engine.
Import JS Rules.

(** [EvaluationTreeNode] (types/index.ts) *)
Inductive NodeType := NCondition | NAnd | NOr.

Inductive EvaluationTreeNode :=
| ENode (ntype : NodeType) (satisfied : option bool) (condition : option string)
        (children : option (list EvaluationTreeNode)) (skipped : option bool)
        (error : option string).

Definition node_satisfied (n : EvaluationTreeNode) : option bool :=
  let '(ENode _ s _ _ _ _) := n in s.
Definition node_skipped (n : EvaluationTreeNode) : option bool :=
  let '(ENode _ _ _ _ k _) := n in k.
Definition node_children (n : EvaluationTreeNode) : option (list EvaluationTreeNode) :=
  let '(ENode _ _ _ c _ _) := n in c.
Definition node_error (n : EvaluationTreeNode) : option string :=
  let '(ENode _ _ _ _ _ e) := n in e.

(** [ConditionOracle.judge] answers. *)
Inductive Judgment := Judged (b : bool) | JudgmentError (message : string).

(** A writer monad recording, in order, the descriptions sent to the
    oracle. *)
Definition W (A : Type) : Type := (A * list string)%type.
Definition wret {A} (a : A) : W A := (a, []).
Definition wbind {A B} (m : W A) (f : A -> W B) : W B :=
  let '(a, w) := m in let '(b, w') := f a in (b, app w w').
Local Notation "x <- m ;; k" := (wbind m (fun x => k))
  (at level 61, m at next level, right associativity).

Definition cond_text (c : AttributeCondition) : string :=
  match description c with Some d => d | None => "" end.

Definition rule_kind (op : option string) : NodeType :=
  match op with
  | Some o => if String.eqb o "OR" then NOr else NAnd
  | None => NAnd
  end.

Definition items (cs : option (list RuleItem)) : list RuleItem :=
  match cs with Some l => l | None => [] end.

(** Modelled from the spec: the node a short-circuited (skipped) rule
    element is reported as; it mirrors the element's shape. *)
Fixpoint skip_tree (r : RuleItem) : EvaluationTreeNode :=
  match r with
  | CondString s => ENode NCondition None (Some s) None (Some true) None
  | CondObject c => ENode NCondition None (Some (cond_text c)) None (Some true) None
  | NestedRule op cs =>
      ENode (rule_kind op) None None
        (Some (match cs with Some l => map skip_tree l | None => [] end)) (Some true) None
  end.

(** AND stops at the first false child, OR at the first true one. *)
Definition stops (k : NodeType) (s : option bool) : bool :=
  match k, s with
  | NAnd, Some false => true
  | NOr, Some true => true
  | _, _ => false
  end.

Definition sat_true (n : EvaluationTreeNode) : bool :=
  match node_satisfied n with Some true => true | _ => false end.

(** A node's [satisfied]: errored ([null]) and skipped children count as
    not satisfied (fail-closed). *)
Definition combine (k : NodeType) (ch : list EvaluationTreeNode) : bool :=
  match k with
  | NAnd => forallb sat_true ch
  | NOr => existsb sat_true ch
  | NCondition => false
  end.

Section Evaluate.
Variable judge : string -> Judgment.

Definition call (d : string) : W Judgment := (judge d, [d]).

Definition leaf (d : string) : W EvaluationTreeNode :=
  j <- call d ;;
  wret (match j with
        | Judged b => ENode NCondition (Some b) (Some d) None (Some false) None
        | JudgmentError m => ENode NCondition None (Some d) None (Some false) (Some m)
        end).

(** Modelled from the spec: the children of an AND/OR node, evaluated
    in declared order until one decides the node ([stops]); the rest are
    reported skipped and never reach the oracle. *)
Fixpoint eval_children (ev : RuleItem -> W EvaluationTreeNode) (k : NodeType)
    (l : list RuleItem) : W (list EvaluationTreeNode) :=
  match l with
  | [] => wret []
  | c :: l' =>
      n <- ev c ;;
      if stops k (node_satisfied n) then wret (n :: map skip_tree l')
      else (ns <- eval_children ev k l' ;; wret (n :: ns))
  end.

(** Modelled from the spec: [evaluate(rule, document)] of the RuleTree
    evaluator (spec 4.1), the document being fixed inside [judge].  An
    operator other than AND/OR, or an empty [conditions] list, is
    invalid input: [satisfied = false] with an explanatory error. *)
Fixpoint evaluate (r : RuleItem) : W EvaluationTreeNode :=
  match r with
  | CondString s => leaf s
  | CondObject c => leaf (cond_text c)
  | NestedRule op cs =>
      let k := rule_kind op in
      if bad_operator op then
        wret (ENode k (Some false) None (Some (map skip_tree (items cs))) (Some false)
                    (Some operator_error))
      else match cs with
      | None | Some [] =>
          wret (ENode k (Some false) None (Some []) (Some false) (Some empty_rule_error))
      | Some l =>
          ch <- eval_children evaluate k l ;;
          wret (ENode k (Some (combine k ch)) None (Some ch) (Some false) None)
      end
  end.
End Evaluate.

(** ClassDescriptor, ClassificationCandidate and the core
    ClassificationResult (spec 3); the processing time is left out. *)
Record ClassDescriptor := { cls_id : string; cls_name : string; cls_description : string }.

Record ClassificationCandidate := {
  cand_class : ClassDescriptor;
  similarity : Q;
  rerank : option Q;
  attribute : option Q;
  effective : Q
}.

Record ClassificationResult := {
  predicted : ClassDescriptor;
  primaryCandidate : ClassificationCandidate;
  alternatives : list ClassificationCandidate;
  evaluationTree : option EvaluationTreeNode
}.

Fixpoint lookup_score (id : string) (l : list (ClassDescriptor * Q)) : option Q :=
  match l with
  | [] => None
  | (c, q) :: l' => if String.eqb (cls_id c) id then Some q else lookup_score id l'
  end.

(** The reranker's score for a class: [None] when the reranker was not
    called, failed ([None] output) or omitted the class. *)
Definition rerank_lookup (out : option (list (ClassDescriptor * Q))) (c : ClassDescriptor)
  : option Q :=
  match out with Some l => lookup_score (cls_id c) l | None => None end.

(** Modelled from the spec: the ScoreAggregator's per-candidate rule
    (spec 4.2): [effective = rerank] when reranking was requested and the
    reranker scored the candidate, [similarity] otherwise. *)
Definition make_candidate (useRR : bool) (out : option (list (ClassDescriptor * Q)))
    (p : ClassDescriptor * Q) : ClassificationCandidate :=
  let '(c, s) := p in
  let r := if useRR then rerank_lookup out c else None in
  {| cand_class := c; similarity := s; rerank := r; attribute := None;
     effective := match r with Some x => x | None => s end |}.

(** Modelled from the spec: ranking by [effective], descending, ties kept
    in similarity order (a stable insertion sort). *)
Fixpoint insert_desc (x : ClassificationCandidate) (l : list ClassificationCandidate)
  : list ClassificationCandidate :=
  match l with
  | [] => [x]
  | y :: l' => if negb (Qle_bool (effective x) (effective y)) then x :: l else y :: insert_desc x l'
  end.

Definition rank_desc (l : list ClassificationCandidate) : list ClassificationCandidate :=
  fold_left (fun acc x => insert_desc x acc) l [].

Definition with_attribute (x : ClassificationCandidate) (a : option Q)
  : ClassificationCandidate :=
  {| cand_class := cand_class x; similarity := similarity x; rerank := rerank x;
     attribute := a; effective := effective x |}.

Fixpoint rule_for (id : string) (cs : list (ClassDescriptor * option RuleItem))
  : option RuleItem :=
  match cs with
  | [] => None
  | (c, r) :: cs' => if String.eqb (cls_id c) id then r else rule_for id cs'
  end.

Inductive PipelineError :=
| InputError (message : string)
| RetrievalError.

Section Pipeline.
(** The three oracles: [SimilarityRanker.rank], [Reranker.rerank]
    ([None] when it fails) and [ConditionOracle.judge]. *)
Variable rank : string -> list ClassDescriptor -> Z -> list (ClassDescriptor * Q).
Variable rerank_oracle :
  string -> list (ClassDescriptor * Q) -> string -> option (list (ClassDescriptor * Q)).
Variable judge : string -> string -> Judgment.

Definition model_of (c : Service.ClassificationConfig) : string :=
  Service.model_or_default (Service.rerankingModel c).

(** The top-K similarity candidates retained for a call. *)
Definition retained (doc : string) (cs : list (ClassDescriptor * option RuleItem))
    (cfg : Service.ClassificationConfig) : list (ClassDescriptor * Q) :=
  firstn (Z.to_nat (Service.topKCandidates cfg))
         (rank doc (map fst cs) (Service.topKCandidates cfg)).

Definition rerank_output (doc : string) (cs : list (ClassDescriptor * option RuleItem))
    (cfg : Service.ClassificationConfig) : option (list (ClassDescriptor * Q)) :=
  if Service.useReranking cfg then rerank_oracle doc (retained doc cs cfg) (model_of cfg)
  else None.

(** Modelled from the spec: [Pipeline.classify] (spec 4.3 and 7).
    Attribute validation runs for the primary candidate only and
    reports a binary attribute score. *)
Definition classify (doc : string) (cs : list (ClassDescriptor * option RuleItem))
    (cfg : Service.ClassificationConfig) : ClassificationResult + PipelineError :=
  if String.eqb (trim doc) "" then inr (InputError "empty document")
  else if match cs with [] => true | _ => false end then inr (InputError "empty class set")
  else if (Service.topKCandidates cfg <? 1)%Z || (Service.topKCandidates cfg >? 100)%Z
  then inr (InputError "topKCandidates must be in [1,100]")
  else
    let sims := retained doc cs cfg in
    let out := rerank_output doc cs cfg in
    match rank_desc (map (make_candidate (Service.useReranking cfg) out) sims) with
    | [] => inr RetrievalError
    | primary :: alts =>
        let validated :=
          if Service.useAttributeValidation cfg then
            match rule_for (cls_id (cand_class primary)) cs with
            | Some rule =>
                let t := fst (evaluate (judge doc) rule) in
                (Some (if sat_true t then 1 else 0), Some t)
            | None => (None, None)
            end
          else (None, None) in
        inl {| predicted := cand_class primary;
               primaryCandidate := with_attribute primary (fst validated);
               alternatives := alts;
               evaluationTree := snd validated |}
    end.
End Pipeline.
End Engine.

(** ** Extracting PDF content ([ClassificationService.extractPDFContent]) *)
Module PDFContent.
Import JS Service.

Record PDFExtractionResult := {
  extractedText : string;
  pageCount : Z;
  extractionMethod : string;
  ext_confidence : Q
}.

(** The fixed result the method returns in place of a real extraction. *)
Definition mockResult : PDFExtractionResult :=
  {| extractedText := "PDF content extraction would happen here...";
     pageCount := 1; extractionMethod := "OCR"; ext_confidence := 95 # 100 |}.

(** [extractPDFContent(file)]: a validation error thrown by
    [validatePDFFile] is caught and turned into a processing error. *)
Definition extractPDFContent (f : option File) : ApiResponse PDFExtractionResult :=
  match validatePDFFile f with
  | Some e =>
      {| success := false; data := None;
         error := Some {| err_type := "processing";
                          err_message := "PDF extraction failed";
                          err_details := Some (fromUnknown_message (ThrownValidation e));
                          err_recoverable := true;
                          err_suggestedAction := Some "Please check your PDF file and try again." |} |}
  | None => {| success := true; data := Some mockResult; error := None |}
  end.
End PDFContent.

(** ** The dataset service (services/dataset-service.ts, [DatasetService]) *)
Module DatasetService.
Import JS Service.

(** Character classes of the service's regular expressions. *)
Definition in_range (lo hi : nat) (c : ascii) : bool :=
  Nat.leb lo (nat_of_ascii c) && Nat.leb (nat_of_ascii c) hi.

Definition is_lower (c : ascii) : bool := in_range 97 122 c.
Definition is_upper (c : ascii) : bool := in_range 65 90 c.
Definition is_digit (c : ascii) : bool := in_range 48 57 c.

(** [[a-zA-Z0-9_-]] *)
Definition id_char (c : ascii) : bool :=
  is_lower c || is_upper c || is_digit c || Ascii.eqb c "_"%char || Ascii.eqb c "-"%char.

Fixpoint all_chars (p : ascii -> bool) (s : string) : bool :=
  match s with
  | EmptyString => true
  | String c s' => p c && all_chars p s'
  end.

(** [/^[a-zA-Z0-9_-]+$/.test(s)] *)
Definition id_pattern (s : string) : bool :=
  match s with
  | EmptyString => false
  | _ => all_chars id_char s
  end.

(** [validateDatasetId(id)]: [None] when it returns, [Some e] when it
    throws [e]. *)
Definition validateDatasetId (id : string) : option ValidationError :=
  if String.eqb (trim id) "" then
    Some (createValidationError "Dataset ID is required" "id")
  else if Nat.ltb (String.length id) 1 || Nat.ltb 100 (String.length id) then
    Some (createValidationError "Dataset ID must be between 1 and 100 characters" "id")
  else if negb (id_pattern id) then
    Some (createValidationError
            "Dataset ID can only contain letters, numbers, underscores, and hyphens" "id")
  else None.

(** A class of a [CreateDatasetRequest] / [UpdateDatasetRequest] (its
    examples are not read by the service). *)
Record DatasetClass := {
  dc_name : option string;
  dc_description : option string
}.

(** [ds_id] is [Some] exactly when the request object has an [id] key,
    i.e. for an [UpdateDatasetRequest]. *)
Record DatasetRequest := {
  ds_id : option string;
  ds_name : option string;
  ds_description : option string;
  ds_classes : option (list DatasetClass)
}.

(** [s.length] of a field the validator has already found non-blank. *)
Definition opt_length (s : option string) : nat :=
  match s with Some s => String.length s | None => 0 end.

Definition opt_str (s : option string) : string :=
  match s with Some s => s | None => "" end.

(** The first error thrown by [list.forEach((x, index) => ...)]. *)
Fixpoint first_error {A} (f : nat -> A -> option ValidationError) (i : nat) (l : list A)
  : option ValidationError :=
  match l with
  | [] => None
  | x :: l' => match f i x with Some e => Some e | None => first_error f (S i) l' end
  end.

Definition class_label (i : nat) (what : string) : string :=
  "Class " ++ nat_to_string (S i) ++ " " ++ what.

Definition class_field (i : nat) (f : string) : string :=
  "classes[" ++ nat_to_string i ++ "]." ++ f.

(** The body of [dataset.classes.forEach((cls, index) => ...)]. *)
Definition check_class (i : nat) (c : DatasetClass) : option ValidationError :=
  if blank_opt (dc_name c) then
    Some (createValidationError (class_label i "name is required") (class_field i "name"))
  else if blank_opt (dc_description c) then
    Some (createValidationError (class_label i "description is required")
            (class_field i "description"))
  else if Nat.ltb 100 (opt_length (dc_name c)) then
    Some (createValidationError (class_label i "name must be less than 100 characters")
            (class_field i "name"))
  else if Nat.ltb 500 (opt_length (dc_description c)) then
    Some (createValidationError
            (class_label i "description must be less than 500 characters")
            (class_field i "description"))
  else None.

Fixpoint find_index (x : string) (l : list string) : option nat :=
  match l with
  | [] => None
  | y :: l' => if String.eqb y x then Some 0%nat else option_map S (find_index x l')
  end.

(** [l.indexOf(x)] *)
Definition indexOf (l : list string) (x : string) : Z :=
  match find_index x l with Some n => Z.of_nat n | None => (-1)%Z end.

(** [full.filter((name, index) => full.indexOf(name) !== index)], over
    the suffix of [full] that starts at [index = i]. *)
Fixpoint dups_from (full : list string) (i : nat) (l : list string) : list string :=
  match l with
  | [] => []
  | x :: l' =>
      if negb (Z.eqb (indexOf full x) (Z.of_nat i)) then x :: dups_from full (S i) l'
      else dups_from full (S i) l'
  end.

Definition duplicates (l : list string) : list string := dups_from l 0 l.

(** [dataset.classes.map(cls => cls.name.toLowerCase())] *)
Definition class_names (cs : list DatasetClass) : list string :=
  map (fun c => toLowerCase (opt_str (dc_name c))) cs.

(** [validateDatasetRequest(dataset)] *)
Definition validateDatasetRequest (d : DatasetRequest) : option ValidationError :=
  if blank_opt (ds_name d) then
    Some (createValidationError "Dataset name is required" "name")
  else if Nat.ltb (opt_length (ds_name d)) 1 || Nat.ltb 100 (opt_length (ds_name d)) then
    Some (createValidationError "Dataset name must be between 1 and 100 characters" "name")
  else if blank_opt (ds_description d) then
    Some (createValidationError "Dataset description is required" "description")
  else if Nat.ltb 500 (opt_length (ds_description d)) then
    Some (createValidationError "Dataset description must be less than 500 characters"
            "description")
  else match ds_classes d with
  | None | Some [] => Some (createValidationError "At least one class is required" "classes")
  | Some cs =>
      if Nat.ltb 50 (List.length cs) then
        Some (createValidationError "Maximum 50 classes allowed per dataset" "classes")
      else match first_error check_class 0 cs with
      | Some e => Some e
      | None =>
          match duplicates (class_names cs) with
          | [] => None
          | dups => Some (createValidationError
                            ("Duplicate class names found: " ++ Rules.join ", " dups)
                            "classes")
          end
      end
  end.

(** [n.toString(b)] for a non-negative integer [n] and a radix [b]
    between 2 and 36: digits [0-9] then [a-z]; [fuel] bounds the number
    of digits. *)
Definition radix_digit (d : Z) : ascii :=
  if (d <? 10)%Z then ascii_of_nat (48 + Z.to_nat d) else ascii_of_nat (87 + Z.to_nat d).

Fixpoint radix_aux (b : Z) (fuel : nat) (n : Z) (acc : string) : string :=
  match fuel with
  | O => acc
  | S fuel' =>
      let acc' := String (radix_digit (n mod b)) acc in
      if (n <? b)%Z then acc' else radix_aux b fuel' (n / b)%Z acc'
  end.

Definition toString_radix (b n : Z) : string :=
  radix_aux b (S (Z.to_nat (Z.log2 n))) n "".

(** [s.replace(re, '')] for a character class [re] given by [keep]'s
    complement. *)
Fixpoint keep_chars (keep : ascii -> bool) (s : string) : string :=
  match s with
  | EmptyString => EmptyString
  | String c s' => if keep c then String c (keep_chars keep s') else keep_chars keep s'
  end.

(** [generateDatasetId(name)], [now] being [Date.now()]. *)
Definition generateDatasetId (name : string) (now : Z) : string :=
  let cleanName :=
    substring 0 50
      (replace_ws (keep_chars (fun c => is_lower c || is_digit c || is_ws c)
                              (toLowerCase name))) in
  cleanName ++ "_" ++ toString_radix 36 now.

(** [validateDomainGeneration(domain, classCount)]; a JavaScript number
    other than [NaN] and the infinities is a rational. *)
Definition is_integer (q : Q) : bool := Z.eqb (Z.modulo (Qnum q) (Zpos (Qden q))) 0.

Definition validateDomainGeneration (domain : string) (classCount : Q)
  : option ValidationError :=
  if String.eqb (trim domain) "" then
    Some (createValidationError "Domain is required" "domain")
  else if Nat.ltb (String.length domain) 3 || Nat.ltb 100 (String.length domain) then
    Some (createValidationError "Domain must be between 3 and 100 characters" "domain")
  else if negb (is_integer classCount) || negb (Qle_bool 2 classCount)
          || negb (Qle_bool classCount 20) then
    Some (createValidationError "Class count must be an integer between 2 and 20"
            "classCount")
  else None.

(** The body of a create request: [{...dataset, id, embeddingsGenerated:
    false, createdAt, updatedAt}] (the dates are left out). *)
Record CreateBody := {
  cb_request : DatasetRequest;
  cb_id : string;
  cb_embeddingsGenerated : bool
}.

(** The calls the service makes through [apiClient]. *)
Inductive Call :=
| Get (path : string)
| Delete (path : string)
| PutDataset (path : string) (body : DatasetRequest)
| PostDataset (path : string) (body : CreateBody)
| PostGenerate (path : string) (domain : string) (num_classes : Q) (examples_per_class : Z)
| PostEmbeddings (path : string).

(** The response a [catch] block of the service builds. *)
Definition failure {T} (type msg : string) (t : Thrown) (recoverable : bool)
    (action : string) : ApiResponse T :=
  {| success := false; data := None;
     error := Some {| err_type := type; err_message := msg;
                      err_details := Some (fromUnknown_message t);
                      err_recoverable := recoverable;
                      err_suggestedAction := Some action |} |}.

(** [loadDataset(id)]; [client] answers each call, the first component
    lists the calls made. *)
Definition loadDataset {T} (client : Call -> ApiResponse T) (id : string)
  : list Call * ApiResponse T :=
  match validateDatasetId id with
  | Some e => ([], failure "filesystem" ("Failed to load dataset " ++ id) (ThrownValidation e)
                     true "Please check the dataset ID and try again.")
  | None => let c := Get ("/datasets/" ++ id) in ([c], client c)
  end.

(** [deleteDataset(id)] *)
Definition deleteDataset {T} (client : Call -> ApiResponse T) (id : string)
  : list Call * ApiResponse T :=
  match validateDatasetId id with
  | Some e => ([], failure "filesystem" ("Failed to delete dataset " ++ id)
                     (ThrownValidation e) false "Please check the dataset ID and try again.")
  | None => let c := Delete ("/datasets/" ++ id) in ([c], client c)
  end.

(** [generateEmbeddings(datasetId)] *)
Definition generateEmbeddings {T} (client : Call -> ApiResponse T) (id : string)
  : list Call * ApiResponse T :=
  match validateDatasetId id with
  | Some e => ([], failure "processing" ("Failed to generate embeddings for dataset " ++ id)
                     (ThrownValidation e) true
                     "Please try again or check if the dataset exists.")
  | None => let c := PostEmbeddings ("/datasets/" ++ id ++ "/embeddings") in ([c], client c)
  end.

(** [datasetExists(id)] *)
Definition datasetExists {T} (client : Call -> ApiResponse T) (id : string) : bool :=
  success (snd (loadDataset client id)).

(** [saveDataset(dataset)], [now] being [Date.now()]. *)
Definition saveDataset {T} (client : Call -> ApiResponse T) (now : Z) (d : DatasetRequest)
  : list Call * ApiResponse T :=
  match validateDatasetRequest d with
  | Some e => ([], failure "filesystem" "Failed to save dataset" (ThrownValidation e) true
                     "Please check your input and try again.")
  | None =>
      let c := match ds_id d with
               | Some id => PutDataset ("/datasets/" ++ id) d
               | None =>
                   PostDataset "/datasets"
                     {| cb_request := d;
                        cb_id := generateDatasetId (opt_str (ds_name d)) now;
                        cb_embeddingsGenerated := false |}
               end in
      ([c], client c)
  end.

(** [generateDataset(domain, classCount)] *)
Definition generateDataset {T} (client : Call -> ApiResponse T) (domain : string)
    (classCount : Q) : list Call * ApiResponse T :=
  match validateDomainGeneration domain classCount with
  | Some e => ([], failure "processing" "Failed to generate dataset" (ThrownValidation e) true
                     "Please try with a different domain or fewer classes.")
  | None =>
      let c := PostGenerate "/wizard/generate-dataset" domain classCount 3 in ([c], client c)
  end.
End DatasetService.

(** ** The attribute service (services/dataset-service.ts, [AttributeService]) *)
Module AttributeService.
Import JS Service Rules.

(** [validateDatasetId(datasetId)] of the attribute service. *)
Definition validateDatasetId (datasetId : string) : option ValidationError :=
  if String.eqb (trim datasetId) "" then
    Some (createValidationError "Dataset ID is required" "datasetId")
  else None.

(** [validateAttributeCondition(condition)] *)
Definition validateAttributeCondition (c : AttributeCondition) : Validation :=
  validation_of (condition_errors c).

(** [generateConditionId()]: [now] is [Date.now()] and [random36] is
    [Math.random().toString(36)]. *)
Definition generateConditionId (now : Z) (random36 : string) : string :=
  "condition_" ++ DatasetService.toString_radix 10 now ++ "_" ++ substring 2 9 random36.

(** [createTextMatchCondition], [createNumericRangeCondition] and
    [createBooleanCondition]; their [parameters] are not part of
    [AttributeCondition] here, since no validator reads them. *)
Definition createTextMatchCondition (now : Z) (random36 description : string)
  : AttributeCondition :=
  {| cond_id := Some (generateConditionId now random36);
     Rules.description := Some description; cond_type := Some "text_match" |}.

Definition createNumericRangeCondition (now : Z) (random36 description : string)
  : AttributeCondition :=
  {| cond_id := Some (generateConditionId now random36);
     Rules.description := Some description; cond_type := Some "numeric_range" |}.

Definition createBooleanCondition (now : Z) (random36 description : string)
  : AttributeCondition :=
  {| cond_id := Some (generateConditionId now random36);
     Rules.description := Some description; cond_type := Some "boolean" |}.

(** [createAndRule(conditions)] and [createOrRule(conditions)] *)
Definition createAndRule (cs : list RuleItem) : RuleItem := NestedRule (Some "AND") (Some cs).
Definition createOrRule (cs : list RuleItem) : RuleItem := NestedRule (Some "OR") (Some cs).

(** [ClassAttribute]: an [AttributeRule] is its [operator] and its
    [conditions]; [requiredAttributes] is [None] when it is missing. *)
Record ClassAttribute := {
  classId : option string;
  className : option string;
  requiredAttributes : option (option string * option (list RuleItem))
}.

Record SaveAttributesRequest := {
  sa_datasetId : string;
  attributes : option (list ClassAttribute)
}.

Definition attr_label (i : nat) (what : string) : string :=
  "Attribute " ++ nat_to_string (S i) ++ " " ++ what.

Definition attr_field (i : nat) (f : string) : string :=
  "attributes[" ++ nat_to_string i ++ "]." ++ f.

(** The body of [request.attributes.forEach((attr, index) => ...)]. *)
Definition check_attribute (i : nat) (a : ClassAttribute) : option ValidationError :=
  if blank_opt (classId a) then
    Some (createValidationError (attr_label i "class ID is required") (attr_field i "classId"))
  else if blank_opt (className a) then
    Some (createValidationError (attr_label i "class name is required")
            (attr_field i "className"))
  else match requiredAttributes a with
  | None =>
      Some (createValidationError (attr_label i "required attributes are required")
              (attr_field i "requiredAttributes"))
  | Some (op, cs) =>
      let v := validateAttributeRule op cs in
      if isValid v then None
      else Some (createValidationError
                   (attr_label i ("rule validation failed: " ++ join ", " (errors v)))
                   (attr_field i "requiredAttributes"))
  end.

(** [validateSaveRequest(request)] *)
Definition validateSaveRequest (r : SaveAttributesRequest) : option ValidationError :=
  match validateDatasetId (sa_datasetId r) with
  | Some e => Some e
  | None =>
      match attributes r with
      | None | Some [] =>
          Some (createValidationError "At least one attribute is required" "attributes")
      | Some l =>
          if Nat.ltb 50 (List.length l) then
            Some (createValidationError "Maximum 50 attributes allowed" "attributes")
          else DatasetService.first_error check_attribute 0 l
      end
  end.

(** The [classes] of the body [saveAttributes] sends. *)
Record SavedClass := {
  saved_name : string;
  saved_description : string;
  required_attributes : option (option string * option (list RuleItem))
}.

Inductive Call := PutAttributes (path : string) (dataset_id : string) (classes : list SavedClass).

(** [saveAttributes(request)] *)
Definition saveAttributes {T} (client : Call -> ApiResponse T) (r : SaveAttributesRequest)
  : list Call * ApiResponse T :=
  match validateSaveRequest r with
  | Some e => ([], DatasetService.failure "filesystem" "Failed to save attributes"
                     (ThrownValidation e) true "Please check your input and try again.")
  | None =>
      let body := map (fun a => {| saved_name := DatasetService.opt_str (className a);
                                   saved_description :=
                                     DatasetService.opt_str (className a)
                                     ++ " class attributes";
                                   required_attributes := requiredAttributes a |})
                      (match attributes r with Some l => l | None => [] end) in
      let c := PutAttributes ("/attributes/" ++ sa_datasetId r) (sa_datasetId r) body in
      ([c], client c)
  end.

(** The [classId] [generateAttributes] gives a class:
    [cls.name.toLowerCase().replace(/\s+/g, '_').replace(/[^a-z0-9_]/g, '')];
    [getAttributes] stops before the last [replace], which is
    [Service.class_id]. *)
Definition generated_class_id (name : string) : string :=
  DatasetService.keep_chars
    (fun c => DatasetService.is_lower c || DatasetService.is_digit c || Ascii.eqb c "_"%char)
    (class_id name).
End AttributeService.

(** ** The attribute handlers of the wizard (components/wizard/WizardComplete.tsx) *)
Module Wizard.
Import Service AttributeService.

(** [x === y] on [classId]s ([string | undefined]). *)
Definition same_class (a b : option string) : bool :=
  match a, b with
  | Some x, Some y => String.eqb x y
  | None, None => true
  | _, _ => false
  end.

(** [!selectedDatasetId] *)
Definition no_dataset (d : option string) : bool :=
  match d with Some s => String.eqb s "" | None => true end.

(** [handleDeleteAttribute(classId)]: the request passed to
    [saveAttributes], if any. *)
Definition handleDeleteAttribute (selectedDatasetId : option string)
    (currentAttributes : list ClassAttribute) (cid : string) : option SaveAttributesRequest :=
  if no_dataset selectedDatasetId then None
  else Some {| sa_datasetId := DatasetService.opt_str selectedDatasetId;
               attributes := Some (filter (fun a => negb (same_class (classId a) (Some cid)))
                                          currentAttributes) |}.

(** The [updatedAttributes] of [handleSaveAttribute(attribute)]. *)
Definition upsert (currentAttributes : list ClassAttribute) (attribute : ClassAttribute)
  : list ClassAttribute :=
  let updated := map (fun a => if same_class (classId a) (classId attribute) then attribute
                               else a) currentAttributes in
  if existsb (fun a => same_class (classId a) (classId attribute)) currentAttributes
  then updated else app updated [attribute].

Definition handleSaveAttribute (selectedDatasetId : option string)
    (currentAttributes : list ClassAttribute) (attribute : ClassAttribute)
  : option SaveAttributesRequest :=
  if no_dataset selectedDatasetId then None
  else Some {| sa_datasetId := DatasetService.opt_str selectedDatasetId;
               attributes := Some (upsert currentAttributes attribute) |}.
End Wizard.

(** ** The remaining actions of the classification store *)
Module StoreActions.
Import Service Store.

Definition setConfig (c : ClassificationConfig) (s : State) : State :=
  {| currentResult := currentResult s; resultHistory := resultHistory s; st_config := c;
     isClassifying := isClassifying s; st_error := st_error s |}.

Definition setClassifying (b : bool) (s : State) : State :=
  {| currentResult := currentResult s; resultHistory := resultHistory s;
     st_config := st_config s; isClassifying := b; st_error := st_error s |}.

Definition setError (e : option AppError) (s : State) : State :=
  {| currentResult := currentResult s; resultHistory := resultHistory s;
     st_config := st_config s; isClassifying := isClassifying s; st_error := e |}.

Definition clearError (s : State) : State := setError None s.

Definition reset (s : State) : State :=
  {| currentResult := None; resultHistory := []; st_config := defaultConfig;
     isClassifying := false; st_error := None |}.

(** The store's actions ([updateConfig] and the PDF-extraction setters,
    which touch none of the fields modelled, are left out). *)
Inductive Action :=
| SetCurrentResult (r : option ClassificationResult)
| AddToHistory (r : option ClassificationResult)
| ClearHistory
| SetConfig (c : ClassificationConfig)
| SetClassifying (b : bool)
| SetError (e : option AppError)
| ClassifyText (post : Payload -> BackendResponse) (r : ClassifyTextRequest)
| ClassifyPDF (upload : Payload -> BackendResponse) (r : ClassifyPDFRequest)
| ClearError
| Reset.

Definition step (s : State) (a : Action) : State :=
  match a with
  | SetCurrentResult r => setCurrentResult r s
  | AddToHistory r => addToHistory r s
  | ClearHistory => clearHistory s
  | SetConfig c => setConfig c s
  | SetClassifying b => setClassifying b s
  | SetError e => setError e s
  | ClassifyText post r => fst (Store.classifyText post r s)
  | ClassifyPDF upload r => fst (Store.classifyPDF upload r s)
  | ClearError => clearError s
  | Reset => reset s
  end.

Definition run (s : State) (acts : list Action) : State := fold_left step acts s.
End StoreActions.

(** * Properties *)

(** ** The classification service *)
Module ServiceFacts.
Import JS Service.

Lemma blank_none : blank_opt None = true.
Proof. reflexivity. Qed.

(** A back end that always fails, for the concrete runs below. *)
Definition down_error : ApiError :=
  {| err_type := "network"; err_message := "Service unavailable"; err_details := None;
     err_recoverable := true; err_suggestedAction := None |}.

Definition backend_down (_ : Payload) : BackendResponse := BFail down_error.

Definition cfg_with_topK (k : Z) : ClassificationConfig :=
  {| useReranking := false; rerankingModel := None; useAttributeValidation := false;
     topKCandidates := k |}.

(** C6: a text request whose text is missing, empty or white space only
    is rejected by the first check of [validateTextRequest] with the
    validation error "Text content is required"; [classifyText] then
    sends nothing to the back end and answers with a failed response that
    carries no data. *)
Theorem classifyText_blank_text_rejected :
  forall (post : Payload -> BackendResponse) (r : ClassifyTextRequest),
    blank_opt (text r) = true ->
    validateTextRequest r = Some (createValidationError "Text content is required" "text")
    /\ classifyText post r
       = ([], text_caught (ThrownValidation
                             (createValidationError "Text content is required" "text")))
    /\ success (snd (classifyText post r)) = false
    /\ data (snd (classifyText post r)) = None.
Proof.
  intros post r H.
  unfold classifyText, validateTextRequest. rewrite H.
  repeat split; reflexivity.
Qed.

Lemma classifyText_blank_text_rejected_witness :
  blank_opt (Some " 	 ") = true
  /\ classifyText backend_down
       {| text := Some " 	 "; datasetId := Some "ds1"; config := Some (cfg_with_topK 5) |}
     = ([], text_caught (ThrownValidation
                           (createValidationError "Text content is required" "text"))).
Proof.
  split; [reflexivity|].
  apply (classifyText_blank_text_rejected backend_down
           {| text := Some " 	 "; datasetId := Some "ds1";
              config := Some (cfg_with_topK 5) |}).
  reflexivity.
Defined.

(** C10: a PDF request whose file is missing, empty, larger than 50MB or
    whose name does not end in ".pdf" once lower-cased is rejected by
    [validatePDFFile]; [classifyPDF] then sends nothing to the back end
    and answers with a failed response that carries no data. *)
Theorem classifyPDF_rejects_bad_file :
  forall (upload : Payload -> BackendResponse) (r : ClassifyPDFRequest),
    (file r = None \/
     exists f, file r = Some f /\
               ((size f = 0)%Z \/ (size f > 50 * 1024 * 1024)%Z
                \/ endsWith (toLowerCase (name f)) ".pdf" = false)) ->
    exists e, validatePDFFile (file r) = Some e
              /\ classifyPDF upload r = ([], pdf_caught (ThrownValidation e))
              /\ success (snd (classifyPDF upload r)) = false
              /\ data (snd (classifyPDF upload r)) = None.
Proof.
  intros upload r H.
  assert (Hv : exists e, validatePDFFile (file r) = Some e).
  { destruct H as [H | [f [Hf Hc]]]; rewrite ?H, ?Hf; simpl.
    - eexists; reflexivity.
    - destruct (endsWith (toLowerCase (name f)) ".pdf") eqn:Ee; simpl;
        [| eexists; reflexivity].
      unfold maxSize.
      destruct Hc as [Hz | [Hbig | Hext]].
      + rewrite Hz. simpl. eexists; reflexivity.
      + replace (size f >? 50 * 1024 * 1024)%Z with true
          by (symmetry; apply Z.gtb_lt; lia).
        eexists; reflexivity.
      + discriminate. }
  destruct Hv as [e He]. exists e.
  assert (Hc : classifyPDF upload r = ([], pdf_caught (ThrownValidation e))).
  { unfold classifyPDF, validatePDFRequest. rewrite He. reflexivity. }
  split; [exact He|]. rewrite Hc. repeat split; reflexivity.
Qed.

Lemma classifyPDF_rejects_bad_file_witness :
  exists e, validatePDFFile (Some {| name := "scan.PNG"; size := 1024 |}) = Some e
    /\ classifyPDF backend_down
         {| file := Some {| name := "scan.PNG"; size := 1024 |};
            pdfDatasetId := Some "ds1"; pdfConfig := Some (cfg_with_topK 5) |}
       = ([], pdf_caught (ThrownValidation e))
    /\ success (snd (classifyPDF backend_down
         {| file := Some {| name := "scan.PNG"; size := 1024 |};
            pdfDatasetId := Some "ds1"; pdfConfig := Some (cfg_with_topK 5) |})) = false
    /\ data (snd (classifyPDF backend_down
         {| file := Some {| name := "scan.PNG"; size := 1024 |};
            pdfDatasetId := Some "ds1"; pdfConfig := Some (cfg_with_topK 5) |})) = None.
Proof.
  apply (classifyPDF_rejects_bad_file backend_down
           {| file := Some {| name := "scan.PNG"; size := 1024 |};
              pdfDatasetId := Some "ds1"; pdfConfig := Some (cfg_with_topK 5) |}).
  right. exists {| name := "scan.PNG"; size := 1024 |}.
  split; [reflexivity | right; right; reflexivity].
Defined.

(** A well-formed PDF request whose [topKCandidates] is 0. *)
Definition pdf_request_topK0 : ClassifyPDFRequest :=
  {| file := Some {| name := "notes.pdf"; size := 2048 |};
     pdfDatasetId := Some "ds1"; pdfConfig := Some (cfg_with_topK 0) |}.

Definition text_request_topK0 : ClassifyTextRequest :=
  {| text := Some "Patient reports low mood."; datasetId := Some "ds1";
     config := Some (cfg_with_topK 0) |}.

(** C5 (evaluation at the failing input): the text path rejects
    [topKCandidates = 0], but [validatePDFRequest] has no such check, so
    [classifyPDF] sends the request, with [top_k_candidates = 0], to the
    back end. *)
Theorem classifyPDF_accepts_topK_out_of_range :
  validateTextRequest text_request_topK0
    = Some (createValidationError "Top K candidates must be between 1 and 100"
              "config.topKCandidates")
  /\ validatePDFRequest pdf_request_topK0 = None
  /\ (forall upload : Payload -> BackendResponse,
        fst (classifyPDF upload pdf_request_topK0)
        = [UploadPDF "/classify/pdf" (file pdf_request_topK0) (Some "ds1")
             (config_payload (cfg_with_topK 0))])
  /\ top_k_candidates (config_payload (cfg_with_topK 0)) = 0%Z.
Proof.
  split; [reflexivity|]. split; [reflexivity|]. split; [|reflexivity].
  intro upload. unfold classifyPDF. simpl.
  destruct (upload _); reflexivity.
Qed.

(** The confidence the front end reports for numeric back-end scores. *)
Definition expected_confidence (e s : Q) : jsval :=
  if negb (Qeq_bool e 0) then JNum e
  else if negb (Qeq_bool s 0) then JNum s else JNum 0.

(** C8: in both response transformations the reported confidence is the
    effective score when it is nonzero, else the similarity score when
    that is nonzero, else 0; so an effective score of exactly 0 reports
    the similarity score. *)
Theorem confidence_falls_back_on_zero :
  forall (b : BackendResult) (e s : Q),
    effective_score b = JNum e -> similarity_score b = JNum s ->
    confidence (text_result b) = expected_confidence e s
    /\ confidence (pdf_result b) = expected_confidence e s
    /\ (Qeq_bool e 0 = true ->
        exists c, confidence (text_result b) = JNum c
                  /\ confidence (pdf_result b) = JNum c /\ c == s).
Proof.
  intros b e s He Hs.
  assert (Hc : forall m, confidence (transform_with m b) = expected_confidence e s).
  { intro m. simpl. rewrite He, Hs. unfold js_or, expected_confidence. simpl.
    destruct (Qeq_bool e 0) eqn:E1; simpl; destruct (Qeq_bool s 0) eqn:E2; simpl;
      rewrite ?E1, ?E2; reflexivity. }
  unfold text_result, pdf_result. rewrite !Hc.
  split; [reflexivity|]. split; [reflexivity|].
  intro Hz. unfold expected_confidence. rewrite Hz. simpl.
  destruct (Qeq_bool s 0) eqn:E; simpl.
  - exists 0. repeat split; try reflexivity.
    apply Qeq_bool_eq in E. rewrite E. reflexivity.
  - exists s. repeat split; reflexivity.
Qed.

Definition zero_effective_result : BackendResult :=
  {| predicted_class_name := "Major Depressive Disorder";
     predicted_class_description := JStr "Depressed mood";
     effective_score := JNum 0; similarity_score := JNum (7 # 10);
     rerank_score := JNum 0; attribute_score := JUndef;
     attribute_validation := None; alternatives := None;
     processing_time := JNum 1; metadata := JUndef; pdf_metadata := JUndef |}.

Lemma confidence_falls_back_on_zero_witness :
  effective_score zero_effective_result = JNum 0
  /\ similarity_score zero_effective_result = JNum (7 # 10)
  /\ confidence (text_result zero_effective_result) = expected_confidence 0 (7 # 10).
Proof.
  split; [reflexivity|]. split; [reflexivity|].
  apply (confidence_falls_back_on_zero zero_effective_result 0 (7 # 10));
    reflexivity.
Defined.
End ServiceFacts.

(** ** The classification store *)
Module StoreFacts.
Import JS Service Store.

Definition backend_answers (b : BackendResult) (_ : Payload) : BackendResponse := BOk b.

Definition answer_for (cls : string) : BackendResult :=
  {| predicted_class_name := cls; predicted_class_description := JUndef;
     effective_score := JNum (8 # 10); similarity_score := JNum (8 # 10);
     rerank_score := JUndef; attribute_score := JUndef;
     attribute_validation := None; alternatives := None;
     processing_time := JNum 1; metadata := JUndef; pdf_metadata := JUndef |}.

Definition note_request : ClassifyTextRequest :=
  {| text := Some "Patient reports low mood and poor sleep."; datasetId := Some "ds1";
     config := Some (ServiceFacts.cfg_with_topK 5) |}.

(** C7 (counterexample): after two successful calls through the store,
    the first call's result is still held in [resultHistory]. *)
Lemma store_keeps_previous_result :
  let s1 := fst (Store.classifyText (backend_answers (answer_for "Depression"))
                   note_request Store.initial) in
  let s2 := fst (Store.classifyText (backend_answers (answer_for "Anxiety"))
                   note_request s1) in
  In (Some (text_result (answer_for "Depression"))) (resultHistory s2)
  /\ text_result (answer_for "Depression") <> text_result (answer_for "Anxiety").
Proof.
  split.
  - simpl. right. left. reflexivity.
  - discriminate.
Qed.

(** C7 (amended): the service builds each result from that call's back-end
    answer alone; the store retains results across calls: a successful
    call makes the result [currentResult] and prepends it to
    [resultHistory], cut to the 50 most recent; a failed call leaves both
    unchanged. *)
Theorem store_retains_results :
  forall (post : Payload -> BackendResponse) (r : ClassifyTextRequest)
         (c : ClassificationConfig) (b : BackendResult) (s : State),
    validateTextRequest r = None -> config r = Some c ->
    post (PostText "/classify/text" (text r) (datasetId r) (config_payload c)) = BOk b ->
    Service.classifyText post r
      = ([PostText "/classify/text" (text r) (datasetId r) (config_payload c)],
         {| success := true; data := Some (text_result b); error := None |})
    /\ currentResult (fst (Store.classifyText post r s)) = Some (text_result b)
    /\ resultHistory (fst (Store.classifyText post r s))
       = firstn 50 (Some (text_result b) :: resultHistory s)
    /\ snd (Store.classifyText post r s) = Resolved (Some (text_result b))
    /\ (forall code msg fallback resp s',
          success resp = false ->
          currentResult (fst (store_classify code msg fallback resp s')) = currentResult s'
          /\ resultHistory (fst (store_classify code msg fallback resp s'))
             = resultHistory s').
Proof.
  intros post r c b s Hv Hc Hp.
  assert (Hs : Service.classifyText post r
               = ([PostText "/classify/text" (text r) (datasetId r) (config_payload c)],
                  {| success := true; data := Some (text_result b); error := None |})).
  { unfold Service.classifyText. rewrite Hv, Hc. simpl. rewrite Hp. reflexivity. }
  split; [exact Hs|].
  unfold Store.classifyText. rewrite Hs. simpl.
  split; [reflexivity|]. split; [reflexivity|]. split; [reflexivity|].
  intros code msg fallback resp s' Hf.
  unfold store_classify. rewrite Hf. simpl. split; reflexivity.
Qed.

Lemma store_retains_results_witness :
  validateTextRequest note_request = None
  /\ currentResult (fst (Store.classifyText (backend_answers (answer_for "Depression"))
                           note_request Store.initial))
     = Some (text_result (answer_for "Depression")).
Proof.
  split; [reflexivity|].
  apply (store_retains_results (backend_answers (answer_for "Depression")) note_request
           (ServiceFacts.cfg_with_topK 5) (answer_for "Depression") Store.initial);
    reflexivity.
Defined.
End StoreFacts.

(** ** The classification options control *)
Module OptionsFacts.
Import Service Options.

(** Replaying the control's events from a starting config. *)
Fixpoint run (c : ClassificationConfig) (evs : list Event) : ClassificationConfig :=
  match evs with
  | [] => c
  | ev :: evs' =>
      match handle c ev with
      | Some c' => run c' evs'
      | None => run c evs'
      end
  end.

Lemma handle_topK :
  forall c ev c', handle c ev = Some c' ->
    topKCandidates c' = topKCandidates c
    \/ exists v, topKCandidates c' = Z.max 1 (Z.min 20 v).
Proof.
  intros c ev c' H.
  destruct ev; simpl in H;
    repeat match type of H with context [if ?b then _ else _] => destruct b end;
    try discriminate; injection H as <-; simpl; eauto.
Qed.

(** C9: the control stores [max(1, min(20, v))] for every input [v];
    every config it emits from the store's default config keeps
    [topKCandidates] in [1, 20], although the service accepts values up
    to 100. *)
Theorem handleTopKChange_clamps :
  (forall (c : ClassificationConfig) (v : Z),
      topKCandidates (handleTopKChange c v) = Z.max 1 (Z.min 20 v)
      /\ (1 <= topKCandidates (handleTopKChange c v) <= 20)%Z)
  /\ (forall evs : list Event,
        (1 <= topKCandidates (run Store.defaultConfig evs) <= 20)%Z)
  /\ validateTextRequest
       {| text := Some "note"; datasetId := Some "ds1";
          config := Some (with_topK Store.defaultConfig 100) |} = None.
Proof.
  split; [| split; [| reflexivity]].
  - intros c v. simpl. split; [reflexivity | lia].
  - assert (Hrun : forall evs c, (1 <= topKCandidates c <= 20)%Z ->
                   (1 <= topKCandidates (run c evs) <= 20)%Z).
    { induction evs as [| ev evs IH]; intros c Hc; simpl; [exact Hc|].
      destruct (handle c ev) as [c' |] eqn:E; apply IH; [| exact Hc].
      destruct (handle_topK c ev c' E) as [-> | [v ->]]; [exact Hc | lia]. }
    intro evs. apply Hrun. simpl. lia.
Qed.
End OptionsFacts.

(** ** Rule validation and rule evaluation *)
Module RuleFacts.
Import JS Rules Engine.

Lemma app_not_nil_r {A} (l1 l2 : list A) : l2 <> [] -> app l1 l2 <> [].
Proof. destruct l1, l2; simpl; congruence. Qed.

Lemma flat_mapi_app {A B} (f : nat -> A -> list B) (i : nat) (l1 : list A) (x : A)
    (l2 : list A) :
  f (i + length l1)%nat x <> [] -> flat_mapi f i (app l1 (x :: l2)) <> [].
Proof.
  revert i. induction l1 as [| y l1 IH]; intros i Hf; simpl.
  - rewrite Nat.add_0_r in Hf. destruct (f i x); [congruence | discriminate].
  - apply app_not_nil_r. apply IH. simpl in Hf. rewrite Nat.add_succ_r in Hf. exact Hf.
Qed.

Lemma invalid_of_errors (es : list string) :
  es <> [] -> isValid (validation_of es) = false.
Proof. destruct es; [congruence | reflexivity]. Qed.

Lemma empty_rule_errors (op : option string) :
  rule_errors (NestedRule op (Some [])) <> []
  /\ In empty_rule_error (rule_errors (NestedRule op (Some [])))
  /\ editor_errors (NestedRule op (Some [])) <> []
  /\ In empty_rule_error (editor_errors (NestedRule op (Some []))).
Proof.
  simpl. destruct (bad_operator op); simpl; repeat split; auto; discriminate.
Qed.

(** C3: a rule node with an empty [conditions] list is invalid for both
    validators, which report "Rule must have at least one condition"
    (also when the node is nested inside a rule), and evaluating it
    yields [satisfied = false] with an error, without any oracle call. *)
Theorem empty_rule_rejected :
  forall op : option string,
    isValid (validateAttributeRule op (Some [])) = false
    /\ In empty_rule_error (errors (validateAttributeRule op (Some [])))
    /\ isValid (validateRule op (Some [])) = false
    /\ In empty_rule_error (errors (validateRule op (Some [])))
    /\ (forall (op' : option string) (l1 l2 : list RuleItem),
          isValid (validateAttributeRule op' (Some (app l1 (NestedRule op (Some []) :: l2))))
          = false
          /\ isValid (validateRule op' (Some (app l1 (NestedRule op (Some []) :: l2))))
             = false)
    /\ (forall judge : string -> Judgment,
          node_satisfied (fst (evaluate judge (NestedRule op (Some [])))) = Some false
          /\ snd (evaluate judge (NestedRule op (Some []))) = []
          /\ (exists m, node_error (fst (evaluate judge (NestedRule op (Some []))))
                        = Some m)
          /\ (bad_operator op = false ->
              node_error (fst (evaluate judge (NestedRule op (Some []))))
              = Some empty_rule_error)).
Proof.
  intro op.
  destruct (empty_rule_errors op) as [Hne [Hin [Hne' Hin']]].
  split; [apply invalid_of_errors; exact Hne|].
  split; [exact Hin|].
  split; [apply invalid_of_errors; exact Hne'|].
  split; [exact Hin'|].
  split.
  - intros op' l1 l2. unfold validateAttributeRule, validateRule. split;
      apply invalid_of_errors; simpl; apply app_not_nil_r; apply app_not_nil_r;
      apply flat_mapi_app.
    + destruct (rule_errors (NestedRule op (Some []))); [congruence | discriminate].
    + destruct (editor_errors (NestedRule op (Some []))); [congruence | discriminate].
  - intro judge. simpl. destruct (bad_operator op); simpl.
    + repeat split; eauto. discriminate.
    + repeat split; eauto.
Qed.
End RuleFacts.

(** ** Short-circuit evaluation *)
Module EvalFacts.
Import JS Rules Engine.

Section WithOracle.
Variable judge : string -> Judgment.

Let evn (x : RuleItem) : EvaluationTreeNode := fst (evaluate judge x).
Let evw (x : RuleItem) : list string := snd (evaluate judge x).

Lemma skip_tree_skipped (x : RuleItem) :
  node_skipped (skip_tree x) = Some true /\ node_satisfied (skip_tree x) = None.
Proof. destruct x; split; reflexivity. Qed.

Lemma evaluate_nonempty (op : option string) (l : list RuleItem) :
  bad_operator op = false -> l <> [] ->
  evaluate judge (NestedRule op (Some l))
  = wbind (eval_children (evaluate judge) (rule_kind op) l)
      (fun ch => wret (ENode (rule_kind op) (Some (combine (rule_kind op) ch)) None
                             (Some ch) (Some false) None)).
Proof.
  intros Hop Hl. destruct l as [| x l]; [congruence|].
  simpl evaluate. rewrite Hop. reflexivity.
Qed.

Lemma and_children (l1 : list RuleItem) (c : RuleItem) (l2 : list RuleItem) :
  Forall (fun x => node_satisfied (evn x) <> Some false) l1 ->
  node_satisfied (evn c) = Some false ->
  eval_children (evaluate judge) NAnd (app l1 (c :: l2))
  = (app (map evn (app l1 [c])) (map skip_tree l2), concat (map evw (app l1 [c]))).
Proof.
  intros Hl1 Hc. induction Hl1 as [| x l1 Hx _ IH]; simpl.
  - unfold evn, evw in *. destruct (evaluate judge c) as [n w]. simpl in Hc |- *.
    rewrite Hc. simpl. rewrite !app_nil_r. reflexivity.
  - unfold wbind at 1. unfold evn, evw in Hx |- *.
    destruct (evaluate judge x) as [n w] eqn:Ex. simpl in Hx |- *.
    unfold wbind. rewrite IH.
    destruct (node_satisfied n) as [[|]|]; simpl; try congruence;
      rewrite app_nil_r; reflexivity.
Qed.
End WithOracle.

(** C2: in an AND rule, children are evaluated in declared order up to
    the first one whose [satisfied] is [false]; every later sibling is
    reported as a skipped node ([skipped = true], [satisfied = null])
    in its place in the tree and never reaches the oracle, whose calls
    are exactly those of the evaluated prefix.  For AND[c1, c2, c3] with
    the oracle answering false on c1, the oracle is called once, for
    c1, and c2 and c3 are skipped. *)
Theorem and_short_circuit :
  forall (judge : string -> Judgment) (l1 : list RuleItem) (c : RuleItem)
         (l2 : list RuleItem),
    Forall (fun x => node_satisfied (fst (evaluate judge x)) <> Some false) l1 ->
    node_satisfied (fst (evaluate judge c)) = Some false ->
    evaluate judge (NestedRule (Some "AND") (Some (app l1 (c :: l2))))
    = (ENode NAnd (Some false) None
         (Some (app (map (fun x => fst (evaluate judge x)) (app l1 [c]))
                    (map skip_tree l2)))
         (Some false) None,
       concat (map (fun x => snd (evaluate judge x)) (app l1 [c])))
    /\ Forall (fun t => node_skipped t = Some true /\ node_satisfied t = None)
              (map skip_tree l2)
    /\ (forall (d1 : string) (x2 x3 : RuleItem),
          judge d1 = Judged false ->
          evaluate judge (NestedRule (Some "AND") (Some [CondString d1; x2; x3]))
          = (ENode NAnd (Some false) None
               (Some [ENode NCondition (Some false) (Some d1) None (Some false) None;
                      skip_tree x2; skip_tree x3])
               (Some false) None, [d1])
          /\ node_skipped (skip_tree x2) = Some true
          /\ node_skipped (skip_tree x3) = Some true).
Proof.
  intros judge l1 c l2 Hl1 Hc.
  split.
  - rewrite evaluate_nonempty by (reflexivity || (destruct l1; discriminate)).
    simpl rule_kind. rewrite (and_children judge l1 c l2 Hl1 Hc).
    unfold wbind, wret. rewrite app_nil_r. f_equal. f_equal. f_equal.
    simpl. rewrite forallb_app. simpl. rewrite map_app. simpl.
    rewrite forallb_app. simpl. unfold sat_true at 2. rewrite Hc. simpl.
    rewrite andb_false_r. reflexivity.
  - split.
    + apply Forall_forall. intros t Ht. apply in_map_iff in Ht.
      destruct Ht as [x [<- _]]. apply skip_tree_skipped.
    + intros d1 x2 x3 Hd. simpl. rewrite Hd. simpl.
      split; [reflexivity|]. split; apply skip_tree_skipped.
Qed.

Definition judge_c1_false (d : string) : Judgment :=
  if String.eqb d "mentions a monetary amount" then Judged false else Judged true.

Lemma and_short_circuit_witness :
  evaluate judge_c1_false
    (NestedRule (Some "AND")
       (Some [CondString "mentions a monetary amount";
              CondString "identifies payer and payee";
              NestedRule (Some "OR") (Some [CondString "lists a due date"])]))
  = (ENode NAnd (Some false) None
       (Some [ENode NCondition (Some false) (Some "mentions a monetary amount") None
                (Some false) None;
              skip_tree (CondString "identifies payer and payee");
              skip_tree (NestedRule (Some "OR") (Some [CondString "lists a due date"]))])
       (Some false) None, ["mentions a monetary amount"]).
Proof.
  exact (proj1 (and_short_circuit judge_c1_false [] (CondString "mentions a monetary amount")
           [CondString "identifies payer and payee";
            NestedRule (Some "OR") (Some [CondString "lists a due date"])]
           (Forall_nil _) eq_refl)).
Defined.
End EvalFacts.

(** ** Score aggregation and the pipeline *)
Module ScoreFacts.
Import JS Rules Engine.

Lemma insert_desc_in (x y : ClassificationCandidate) (l : list ClassificationCandidate) :
  In y (insert_desc x l) -> y = x \/ In y l.
Proof.
  induction l as [| z l IH]; simpl; [intuition|].
  destruct (negb (Qle_bool (effective x) (effective z))); simpl.
  { intros [H | H]; [left; symmetry; exact H | right; exact H]. }
  intros [H | H]; [right; left; exact H|].
  destruct (IH H); [left | right; right]; assumption.
Qed.

Lemma fold_insert_in (l acc : list ClassificationCandidate) (y : ClassificationCandidate) :
  In y (fold_left (fun acc x => insert_desc x acc) l acc) -> In y acc \/ In y l.
Proof.
  revert acc. induction l as [| x l IH]; intros acc H; simpl in *; [tauto|].
  destruct (IH _ H) as [H1 | H1]; [| tauto].
  destruct (insert_desc_in x y acc H1) as [-> | H2]; [right; left; reflexivity | left; exact H2].
Qed.

Lemma rank_desc_in (l : list ClassificationCandidate) (y : ClassificationCandidate) :
  In y (rank_desc l) -> In y l.
Proof. intro H. destruct (fold_insert_in l [] y H) as [[] | H1]; exact H1. Qed.

(** What every candidate built by [make_candidate] satisfies. *)
Definition candidate_ok (useRR : bool) (out : option (list (ClassDescriptor * Q)))
    (sims : list (ClassDescriptor * Q)) (x : ClassificationCandidate) : Prop :=
  In (cand_class x, similarity x) sims
  /\ rerank x = (if useRR then rerank_lookup out (cand_class x) else None)
  /\ effective x = match rerank x with Some r => r | None => similarity x end.

Lemma make_candidate_ok useRR out sims y :
  In y (map (make_candidate useRR out) sims) -> candidate_ok useRR out sims y.
Proof.
  intro H. apply in_map_iff in H. destruct H as [[c s] [<- Hin]].
  unfold candidate_ok. simpl. auto.
Qed.

Lemma classify_inv rank rr judge doc cs cfg res :
  classify rank rr judge doc cs cfg = inl res ->
  exists primary a t,
    rank_desc (map (make_candidate (Service.useReranking cfg)
                      (rerank_output rank rr doc cs cfg))
                   (retained rank doc cs cfg)) = primary :: alternatives res
    /\ predicted res = cand_class primary
    /\ primaryCandidate res = with_attribute primary a
    /\ evaluationTree res = t
    /\ ((a = None /\ t = None)
        \/ (Service.useAttributeValidation cfg = true
            /\ exists rule, rule_for (cls_id (cand_class primary)) cs = Some rule
               /\ t = Some (fst (evaluate (judge doc) rule))
               /\ a = Some (if sat_true (fst (evaluate (judge doc) rule)) then 1 else 0))).
Proof.
  unfold classify. intro H.
  destruct (String.eqb (trim doc) ""); [discriminate|].
  destruct (match cs with [] => true | _ => false end); [discriminate|].
  destruct ((Service.topKCandidates cfg <? 1)%Z || (Service.topKCandidates cfg >? 100)%Z);
    [discriminate|].
  destruct (rank_desc _) as [| primary alts] eqn:Er; [discriminate|].
  injection H as <-.
  destruct (Service.useAttributeValidation cfg) eqn:Ev.
  - destruct (rule_for (cls_id (cand_class primary)) cs) as [rule |] eqn:Eru.
    + exists primary, (Some (if sat_true (fst (evaluate (judge doc) rule)) then 1 else 0)),
        (Some (fst (evaluate (judge doc) rule))).
      split; [reflexivity|]. split; [reflexivity|]. split; [reflexivity|].
      split; [reflexivity|]. right. split; [reflexivity|].
      exists rule. split; [exact Eru|]. split; reflexivity.
    + exists primary, None, None.
      split; [reflexivity|]. split; [reflexivity|]. split; [reflexivity|].
      split; [reflexivity|]. left. split; reflexivity.
  - exists primary, None, None.
    split; [reflexivity|]. split; [reflexivity|]. split; [reflexivity|].
    split; [reflexivity|]. left. split; reflexivity.
Qed.

(** C1: every candidate of a classification result (the primary one and
    each alternative) comes from the retained similarity candidates and
    has [effective = similarity] when reranking is off; when reranking is
    on, [effective] is the reranker's score for its class if the
    reranker gave one, whatever the candidate's similarity rank, and its
    similarity otherwise. *)
Theorem effective_score_rule :
  forall rank rr judge doc cs cfg res,
    classify rank rr judge doc cs cfg = inl res ->
    forall x, In x (primaryCandidate res :: alternatives res) ->
      In (cand_class x, similarity x) (retained rank doc cs cfg)
      /\ (Service.useReranking cfg = false -> effective x = similarity x)
      /\ (Service.useReranking cfg = true -> forall r,
            rerank_lookup (rerank_output rank rr doc cs cfg) (cand_class x) = Some r ->
            effective x = r)
      /\ (Service.useReranking cfg = true ->
            rerank_lookup (rerank_output rank rr doc cs cfg) (cand_class x) = None ->
            effective x = similarity x).
Proof.
  intros rank rr judge doc cs cfg res H x Hx.
  destruct (classify_inv rank rr judge doc cs cfg res H)
    as [primary [a [t [Er [_ [Hp _]]]]]].
  assert (Hgen : forall y, In y (primary :: alternatives res) ->
                 candidate_ok (Service.useReranking cfg) (rerank_output rank rr doc cs cfg)
                   (retained rank doc cs cfg) y).
  { intros y Hy. apply make_candidate_ok, rank_desc_in. rewrite Er. exact Hy. }
  (* [with_attribute] keeps the scores of the primary candidate *)
  assert (Hx' : exists y, In y (primary :: alternatives res)
                /\ cand_class x = cand_class y /\ similarity x = similarity y
                /\ rerank x = rerank y /\ effective x = effective y).
  { destruct Hx as [<- | Hx].
    - exists primary. rewrite Hp. split; [left; reflexivity | repeat split].
    - exists x. split; [right; exact Hx | repeat split]. }
  destruct Hx' as [y [Hy [E1 [E2 [E3 E4]]]]].
  destruct (Hgen y Hy) as [Hin [Hr He]].
  rewrite E1, E2, E4. split; [exact Hin|]. rewrite He, Hr.
  split; [intros -> ; reflexivity|].
  split; intros -> ; [intros r0 E; rewrite E; reflexivity | intros E; rewrite E; reflexivity].
Qed.

(** The same configuration with attribute validation switched to [b]. *)
Definition with_validation (b : bool) (c : Service.ClassificationConfig)
  : Service.ClassificationConfig :=
  {| Service.useReranking := Service.useReranking c;
     Service.rerankingModel := Service.rerankingModel c;
     Service.useAttributeValidation := b;
     Service.topKCandidates := Service.topKCandidates c |}.

Lemma retained_with_validation rank doc cs cfg b :
  retained rank doc cs (with_validation b cfg) = retained rank doc cs cfg.
Proof. reflexivity. Qed.

Lemma rerank_output_with_validation rank rr doc cs cfg b :
  rerank_output rank rr doc cs (with_validation b cfg) = rerank_output rank rr doc cs cfg.
Proof. reflexivity. Qed.

(** C4: when the primary candidate of a result carries an attribute
    score, the result carries the evaluation tree it was read from and
    the score is 1 if the tree's root is satisfied ([Some true]) and 0
    otherwise; switching attribute validation on or off changes neither
    the predicted class, nor the alternatives, nor any score other than
    the attribute one. *)
Theorem attribute_score_binary :
  forall rank rr judge doc cs cfg res,
    classify rank rr judge doc cs cfg = inl res ->
    (forall a, attribute (primaryCandidate res) = Some a ->
       exists t, evaluationTree res = Some t
         /\ (node_satisfied t = Some true -> a = 1)
         /\ (node_satisfied t <> Some true -> a = 0))
    /\ (forall b, exists res',
          classify rank rr judge doc cs (with_validation b cfg) = inl res'
          /\ predicted res' = predicted res
          /\ alternatives res' = alternatives res
          /\ with_attribute (primaryCandidate res') None
             = with_attribute (primaryCandidate res) None).
Proof.
  intros rank rr judge doc cs cfg res H. split.
  - destruct (classify_inv rank rr judge doc cs cfg res H)
      as [primary [a0 [t0 [_ [_ [Hp [Ht Hcase]]]]]]].
    intros a Ha. rewrite Hp in Ha. simpl in Ha.
    destruct Hcase as [[-> ->] | [_ [rule [_ [-> ->]]]]]; [discriminate|].
    injection Ha as <-. eexists. split; [exact Ht|].
    unfold sat_true.
    destruct (node_satisfied (fst (evaluate (judge doc) rule))) as [[|]|];
      split; intro E; solve [reflexivity | congruence].
  - intro b. revert H. unfold classify.
    rewrite retained_with_validation, rerank_output_with_validation.
    change (Service.useReranking (with_validation b cfg)) with (Service.useReranking cfg).
    change (Service.topKCandidates (with_validation b cfg))
      with (Service.topKCandidates cfg).
    destruct (String.eqb (trim doc) ""); [discriminate|].
    destruct (match cs with [] => true | _ => false end); [discriminate|].
    destruct ((Service.topKCandidates cfg <? 1)%Z || (Service.topKCandidates cfg >? 100)%Z);
      [discriminate|].
    destruct (rank_desc _) as [| primary alts]; [discriminate|].
    intro H. injection H as <-.
    eexists. split; [reflexivity|]. repeat split.
Qed.

(** A run of the pipeline: two classes; the reranker rescores only the
    one ranked second by similarity; the document satisfies the first
    condition of the Invoice rule. *)
Definition invoice : ClassDescriptor :=
  {| cls_id := "inv"; cls_name := "Invoice"; cls_description := "a bill" |}.
Definition resume : ClassDescriptor :=
  {| cls_id := "res"; cls_name := "Resume"; cls_description := "a CV" |}.
Definition invoice_rule : RuleItem :=
  NestedRule (Some "AND") (Some [CondString "has total"; CondString "has date"]).
Definition demo_classes : list (ClassDescriptor * option RuleItem) :=
  [(invoice, Some invoice_rule); (resume, None)].
Definition demo_rank (doc : string) (cs : list ClassDescriptor) (k : Z)
  : list (ClassDescriptor * Q) :=
  [(invoice, 8 # 10); (resume, 6 # 10)].
Definition demo_rerank (doc : string) (cands : list (ClassDescriptor * Q)) (model : string)
  : option (list (ClassDescriptor * Q)) :=
  Some [(resume, 3 # 10)].
Definition demo_judge (doc d : string) : Judgment :=
  if String.eqb d "has date" then Judged false else Judged true.
Definition demo_cfg : Service.ClassificationConfig :=
  {| Service.useReranking := true; Service.rerankingModel := None;
     Service.useAttributeValidation := true; Service.topKCandidates := 5 |}.
Definition demo_tree : EvaluationTreeNode :=
  ENode NAnd (Some false) None
    (Some [ENode NCondition (Some true) (Some "has total") None (Some false) None;
           ENode NCondition (Some false) (Some "has date") None (Some false) None])
    (Some false) None.
Definition resume_candidate : ClassificationCandidate :=
  {| cand_class := resume; similarity := 6 # 10; rerank := Some (3 # 10);
     attribute := None; effective := 3 # 10 |}.
Definition demo_result : ClassificationResult :=
  {| predicted := invoice;
     primaryCandidate :=
       {| cand_class := invoice; similarity := 8 # 10; rerank := None;
          attribute := Some 0; effective := 8 # 10 |};
     alternatives := [resume_candidate];
     evaluationTree := Some demo_tree |}.

Lemma demo_classify :
  classify demo_rank demo_rerank demo_judge "total 12 EUR" demo_classes demo_cfg
  = inl demo_result.
Proof. vm_compute. reflexivity. Qed.

Lemma effective_score_rule_witness :
  classify demo_rank demo_rerank demo_judge "total 12 EUR" demo_classes demo_cfg
    = inl demo_result
  /\ effective resume_candidate = 3 # 10.
Proof.
  split; [exact demo_classify|].
  destruct (effective_score_rule demo_rank demo_rerank demo_judge "total 12 EUR"
              demo_classes demo_cfg demo_result demo_classify resume_candidate
              (or_intror (or_introl eq_refl))) as [_ [_ [Hr _]]].
  exact (Hr eq_refl (3 # 10) eq_refl).
Defined.

Lemma attribute_score_binary_witness :
  classify demo_rank demo_rerank demo_judge "total 12 EUR" demo_classes demo_cfg
    = inl demo_result
  /\ attribute (primaryCandidate demo_result) = Some 0
  /\ exists res',
       classify demo_rank demo_rerank demo_judge "total 12 EUR" demo_classes
         (with_validation false demo_cfg) = inl res'
       /\ predicted res' = invoice.
Proof.
  split; [exact demo_classify|]. split; [reflexivity|].
  destruct (attribute_score_binary demo_rank demo_rerank demo_judge "total 12 EUR"
              demo_classes demo_cfg demo_result demo_classify) as [_ Hb].
  destruct (Hb false) as [res' [E [Ep _]]].
  exists res'. split; [exact E | exact Ep].
Defined.
End ScoreFacts.


(** ** The dataset and attribute services, the wizard, the store actions *)

Module StringFacts.
Import JS DatasetService.
Local Open Scope nat_scope.

Lemma all_chars_app p s1 s2 :
  all_chars p (s1 ++ s2) = all_chars p s1 && all_chars p s2.
Proof. induction s1 as [| c s1 IH]; simpl; [reflexivity|]. rewrite IH, andb_assoc. reflexivity. Qed.

Lemma length_app s1 s2 : String.length (s1 ++ s2) = String.length s1 + String.length s2.
Proof. induction s1 as [| c s1 IH]; simpl; [reflexivity|]. rewrite IH. reflexivity. Qed.

Lemma all_chars_impl (p q : ascii -> bool) s :
  (forall c, p c = true -> q c = true) -> all_chars p s = true -> all_chars q s = true.
Proof.
  intro H. induction s as [| c s IH]; simpl; [reflexivity|].
  intro Hs. apply andb_prop in Hs as [Hc Hs]. rewrite (H c Hc), (IH Hs). reflexivity.
Qed.

Lemma rev_string_length s acc :
  String.length (rev_string s acc) = String.length s + String.length acc.
Proof.
  revert acc. induction s as [| c s IH]; intro acc; simpl; [reflexivity|].
  rewrite IH. simpl. lia.
Qed.

Lemma rev_string_all p s acc :
  all_chars p (rev_string s acc) = all_chars p s && all_chars p acc.
Proof.
  revert acc. induction s as [| c s IH]; intro acc; simpl; [reflexivity|].
  rewrite IH. simpl. destruct (p c), (all_chars p s), (all_chars p acc); reflexivity.
Qed.

Lemma trim_start_all_ws s : trim_start s = "" -> all_chars is_ws s = true.
Proof.
  induction s as [| c s IH]; simpl; [reflexivity|].
  destruct (is_ws c) eqn:E; [simpl; exact IH | discriminate].
Qed.

Lemma all_ws_trim_start s : all_chars is_ws (trim_start s) = true -> all_chars is_ws s = true.
Proof.
  induction s as [| c s IH]; simpl; [reflexivity|].
  destruct (is_ws c) eqn:E; simpl; [exact IH | rewrite E; discriminate].
Qed.

(** [s.trim()] is empty only when [s] is all white space. *)
Lemma trim_empty_all_ws s : trim s = "" -> all_chars is_ws s = true.
Proof.
  unfold trim. intro H.
  assert (H1 : trim_start (rev_string (trim_start s) "") = "").
  { destruct (trim_start (rev_string (trim_start s) "")) as [| c t] eqn:E; [reflexivity|].
    exfalso. assert (Hl := rev_string_length (String c t) ""). rewrite H in Hl.
    simpl in Hl. lia. }
  apply trim_start_all_ws in H1. rewrite rev_string_all in H1.
  apply andb_prop in H1 as [H1 _]. apply all_ws_trim_start, H1.
Qed.

End StringFacts.

Module DatasetFacts.
Import JS Service DatasetService StringFacts.
Local Open Scope nat_scope.

Ltac all_ascii := intros [[] [] [] [] [] [] [] []]; vm_compute.

Lemma id_char_not_ws c : id_char c = true -> is_ws c = false.
Proof. revert c. all_ascii; intros; first [reflexivity | discriminate]. Qed.

Lemma trim_nonblank s :
  s <> "" -> all_chars (fun c => negb (is_ws c)) s = true -> trim s <> "".
Proof.
  intros Hne Ha Ht. apply trim_empty_all_ws in Ht.
  destruct s as [| c s]; [contradiction|]. simpl in Ha, Ht.
  destruct (is_ws c); discriminate.
Qed.

Lemma trim_empty_string : trim "" = "".
Proof. reflexivity. Qed.

Lemma validateDatasetId_none_iff id :
  validateDatasetId id = None
  <-> id <> "" /\ String.length id <= 100 /\ all_chars id_char id = true.
Proof.
  unfold validateDatasetId. split.
  - destruct (String.eqb (trim id) "") eqn:E1; [discriminate|].
    destruct (Nat.ltb (String.length id) 1 || Nat.ltb 100 (String.length id)) eqn:E2;
      [discriminate|].
    apply orb_false_elim in E2 as [_ E2]. apply Nat.ltb_ge in E2.
    destruct id as [| c s]; simpl; [discriminate|].
    destruct (id_char c && all_chars id_char s) eqn:E3; simpl; [|discriminate].
    intros _. split; [discriminate|]. split; [exact E2 | reflexivity].
  - intros [Hne [Hl Ha]].
    assert (Ht : trim id <> "").
    { apply trim_nonblank; [exact Hne|].
      apply (all_chars_impl id_char); [|exact Ha].
      intros c Hc. rewrite (id_char_not_ws c Hc). reflexivity. }
    apply String.eqb_neq in Ht. rewrite Ht.
    destruct id as [| c s]; [contradiction|].
    replace (Nat.ltb (String.length (String c s)) 1) with false
      by (symmetry; apply Nat.ltb_ge; simpl; lia).
    replace (Nat.ltb 100 (String.length (String c s))) with false
      by (symmetry; apply Nat.ltb_ge; exact Hl).
    simpl. simpl in Ha. rewrite Ha. reflexivity.
Qed.

(** Characters of generated ids: [[a-z0-9_]]. *)
Definition gen_char (c : ascii) : bool := is_lower c || is_digit c || Ascii.eqb c "_"%char.

Lemma gen_char_id_char c : gen_char c = true -> id_char c = true.
Proof. unfold gen_char, id_char. intro H. repeat (apply orb_prop in H as [H | H]); rewrite H;
  repeat rewrite orb_true_r; reflexivity. Qed.

Lemma keep_chars_all keep s : all_chars keep (keep_chars keep s) = true.
Proof.
  induction s as [| c s IH]; simpl; [reflexivity|].
  destruct (keep c) eqn:E; simpl; [rewrite E|]; assumption.
Qed.

Lemma replace_ws_runs_all (q : ascii -> bool) b s :
  q "_"%char = true -> all_chars (fun c => is_ws c || q c) s = true ->
  all_chars q (replace_ws_runs b s) = true.
Proof.
  intro Hu. revert b. induction s as [| c s IH]; intros b Hs; simpl; [reflexivity|].
  simpl in Hs. apply andb_prop in Hs as [Hc Hs].
  destruct (is_ws c) eqn:E.
  - destruct b; simpl; [apply IH; exact Hs | rewrite Hu; apply IH; exact Hs].
  - simpl in Hc. simpl. rewrite Hc. apply IH. exact Hs.
Qed.

Lemma substring0_all p m s : all_chars p s = true -> all_chars p (substring 0 m s) = true.
Proof.
  revert s. induction m as [| m IH]; intros s Hs; simpl; [destruct s; reflexivity|].
  destruct s as [| c s]; simpl; [reflexivity|]. simpl in Hs.
  apply andb_prop in Hs as [Hc Hs]. rewrite Hc. apply IH. exact Hs.
Qed.

Lemma substring0_length m s : String.length (substring 0 m s) <= m.
Proof.
  revert s. induction m as [| m IH]; intro s; simpl; [destruct s; simpl; lia|].
  destruct s as [| c s]; simpl; [lia|]. specialize (IH s). lia.
Qed.

Lemma radix_digit_ok d : (0 <= d < 36)%Z -> gen_char (radix_digit d) = true.
Proof.
  intro Hd.
  assert (Hall : forallb (fun k => gen_char (radix_digit (Z.of_nat k))) (seq 0 36) = true)
    by (vm_compute; reflexivity).
  rewrite forallb_forall in Hall.
  specialize (Hall (Z.to_nat d)). rewrite Z2Nat.id in Hall by lia.
  apply Hall. apply in_seq. lia.
Qed.

Lemma radix_aux_all fuel n acc :
  all_chars gen_char acc = true -> all_chars gen_char (radix_aux 36 fuel n acc) = true.
Proof.
  revert n acc. induction fuel as [| fuel IH]; intros n acc Ha; simpl; [exact Ha|].
  assert (Hd : gen_char (radix_digit (n mod 36)) = true)
    by (apply radix_digit_ok; apply Z.mod_pos_bound; lia).
  destruct (n <? 36)%Z; simpl; [rewrite Hd; exact Ha|].
  apply IH. simpl. rewrite Hd. exact Ha.
Qed.

Lemma generateDatasetId_chars name now :
  all_chars gen_char (generateDatasetId name now) = true
  /\ String.length (generateDatasetId name now)
     <= 51 + String.length (toString_radix 36 now).
Proof.
  unfold generateDatasetId. split.
  - rewrite all_chars_app. apply andb_true_intro. split.
    + apply substring0_all. apply replace_ws_runs_all; [reflexivity|].
      apply (all_chars_impl (fun c => is_lower c || is_digit c || is_ws c));
        [| apply keep_chars_all].
      intros c Hc. unfold gen_char.
      destruct (is_ws c), (is_lower c), (is_digit c); simpl in *; try reflexivity;
        discriminate.
    + simpl. apply radix_aux_all. reflexivity.
  - rewrite length_app. simpl.
    pose proof (substring0_length 50
      (replace_ws (keep_chars (fun c => is_lower c || is_digit c || is_ws c)
                              (toLowerCase name)))). lia.
Qed.

Lemma generateDatasetId_valid name now :
  String.length (toString_radix 36 now) <= 49 ->
  validateDatasetId (generateDatasetId name now) = None.
Proof.
  intro Hl. destruct (generateDatasetId_chars name now) as [Ha Hlen].
  apply validateDatasetId_none_iff. split; [|split].
  - unfold generateDatasetId. intro H. apply (f_equal String.length) in H.
    rewrite length_app in H. simpl in H. lia.
  - lia.
  - apply (all_chars_impl gen_char); [exact gen_char_id_char | exact Ha].
Qed.

Lemma radix_aux_length b fuel n acc :
  String.length (radix_aux b fuel n acc) <= fuel + String.length acc.
Proof.
  revert n acc. induction fuel as [| fuel IH]; intros n acc; simpl; [lia|].
  destruct (n <? b)%Z; simpl; [lia|].
  specialize (IH (n / b)%Z (String (radix_digit (n mod b)) acc)). simpl in IH. lia.
Qed.

Lemma toString_radix36_length now :
  (now < 2 ^ 49)%Z -> String.length (toString_radix 36 now) <= 49.
Proof.
  intro H. unfold toString_radix.
  pose proof (radix_aux_length 36 (S (Z.to_nat (Z.log2 now))) now "") as Hl.
  change (String.length "") with 0 in Hl.
  assert (Hlog : (Z.log2 now < 49)%Z).
  { destruct (Z.le_gt_cases now 0) as [Hn | Hn].
    - rewrite Z.log2_nonpos by exact Hn. lia.
    - apply Z.log2_lt_pow2; lia. }
  pose proof (Z.log2_nonneg now). lia.
Qed.

(** X1: [validateDatasetId] accepts exactly the non-empty ids of at most
    100 characters drawn from [a-zA-Z0-9_-]. *)
Theorem validateDatasetId_spec id :
  validateDatasetId id = None
  <-> id <> "" /\ String.length id <= 100 /\ all_chars id_char id = true.
Proof. apply validateDatasetId_none_iff. Qed.

(** X2: for every timestamp below 2^49 ms, the id [generateDatasetId]
    builds from any name uses only [a-z0-9_] and passes
    [validateDatasetId]. *)
Theorem generateDatasetId_accepted name now :
  (now < 2 ^ 49)%Z ->
  validateDatasetId (generateDatasetId name now) = None
  /\ all_chars gen_char (generateDatasetId name now) = true.
Proof.
  intro H. split.
  - apply generateDatasetId_valid. apply toString_radix36_length. exact H.
  - apply generateDatasetId_chars.
Qed.

Lemma generateDatasetId_accepted_witness :
  (1760000000000 < 2 ^ 49)%Z
  /\ validateDatasetId (generateDatasetId "Mental Health  Notes! (v2)" 1760000000000) = None
  /\ all_chars gen_char (generateDatasetId "Mental Health  Notes! (v2)" 1760000000000) = true.
Proof.
  split; [reflexivity|].
  apply (generateDatasetId_accepted "Mental Health  Notes! (v2)" 1760000000000).
  reflexivity.
Defined.

End DatasetFacts.

Module DatasetFacts2.
Import JS Service DatasetService StringFacts DatasetFacts.
Local Open Scope nat_scope.

Lemma find_index_app_notin x p s :
  ~ In x p -> find_index x (p ++ s) = option_map (Nat.add (List.length p)) (find_index x s).
Proof.
  induction p as [| y p IH]; intro Hn; simpl.
  - destruct (find_index x s); reflexivity.
  - destruct (String.eqb y x) eqn:E.
    + apply String.eqb_eq in E. exfalso. apply Hn. left. exact E.
    + rewrite IH by (intro H; apply Hn; right; exact H).
      destruct (find_index x s); reflexivity.
Qed.

Lemma find_index_in x p s :
  In x p -> exists k, find_index x (p ++ s) = Some k /\ k < List.length p.
Proof.
  induction p as [| y p IH]; intro Hin; [destruct Hin|]. simpl.
  destruct (String.eqb y x) eqn:E; [exists 0; split; [reflexivity | lia]|].
  destruct Hin as [-> | Hin]; [rewrite String.eqb_refl in E; discriminate|].
  destruct (IH Hin) as [k [Hk Hlt]]. rewrite Hk. exists (S k). split; [reflexivity | lia].
Qed.

Lemma dups_from_nil_iff s p :
  NoDup p -> (dups_from (p ++ s) (List.length p) s = [] <-> NoDup (p ++ s)).
Proof.
  revert p. induction s as [| x s IH]; intros p Hp; simpl.
  - rewrite app_nil_r. split; [intros _; exact Hp | reflexivity].
  - unfold indexOf. destruct (in_dec string_dec x p) as [Hin | Hnin].
    + destruct (find_index_in x p (x :: s) Hin) as [k [Hk Hlt]]. rewrite Hk.
      replace (Z.eqb (Z.of_nat k) (Z.of_nat (List.length p))) with false
        by (symmetry; apply Z.eqb_neq; lia).
      simpl. split; [discriminate|].
      intro Hnd. apply NoDup_remove_2 in Hnd. exfalso. apply Hnd. apply in_or_app. left.
      exact Hin.
    + rewrite find_index_app_notin by exact Hnin. simpl. rewrite String.eqb_refl. simpl.
      rewrite Nat.add_0_r, Z.eqb_refl. simpl.
      replace (app p (x :: s)) with (app (app p [x]) s) by (rewrite <- app_assoc; reflexivity).
      replace (S (List.length p)) with (List.length (app p [x]))
        by (rewrite List.length_app; simpl; lia).
      apply IH. apply (Permutation_NoDup (Permutation_cons_append p x)).
      constructor; assumption.
Qed.

(** [classNames.filter((name, index) => classNames.indexOf(name) !== index)]
    is empty exactly when the names are pairwise distinct. *)
Lemma duplicates_nil_iff l : duplicates l = [] <-> NoDup l.
Proof. apply (dups_from_nil_iff l []). constructor. Qed.

Lemma first_error_none_iff {A} (f : nat -> A -> option ValidationError) (P : A -> Prop) i l :
  (forall j x, f j x = None <-> P x) -> (first_error f i l = None <-> Forall P l).
Proof.
  intro Hf. revert i. induction l as [| x l IH]; intro i; simpl.
  - split; [constructor | reflexivity].
  - destruct (f i x) eqn:E.
    + split; [discriminate|]. intro H. inversion H as [| ? ? Hx _]; subst.
      apply (Hf i) in Hx. congruence.
    + rewrite IH. split; [intro H; constructor; [apply (Hf i); exact E | exact H]|].
      intro H. inversion H; assumption.
Qed.

Lemma blank_opt_false s :
  blank_opt s = false <-> exists v, s = Some v /\ trim v <> "".
Proof.
  destruct s as [v |]; simpl; split.
  - intro H. exists v. split; [reflexivity|]. apply String.eqb_neq. exact H.
  - intros [v' [Hv Ht]]. injection Hv as <-. apply String.eqb_neq. exact Ht.
  - discriminate.
  - intros [v' [Hv _]]. discriminate.
Qed.

Lemma trim_nonblank_nonempty v : trim v <> "" -> v <> "".
Proof. intros H ->. apply H. reflexivity. Qed.

(** What [check_class] accepts. *)
Definition class_ok (c : DatasetClass) : Prop :=
  exists n d, dc_name c = Some n /\ trim n <> "" /\ String.length n <= 100
    /\ dc_description c = Some d /\ trim d <> "" /\ String.length d <= 500.

Lemma check_class_none_iff i c : check_class i c = None <-> class_ok c.
Proof.
  unfold check_class, class_ok.
  destruct (blank_opt (dc_name c)) eqn:E1.
  { split; [discriminate|]. intros [n [d [Hn [Htn _]]]].
    rewrite Hn in E1. simpl in E1. apply String.eqb_eq in E1. contradiction. }
  destruct (blank_opt (dc_description c)) eqn:E2.
  { split; [discriminate|]. intros [n [d [_ [_ [_ [Hd [Htd _]]]]]]].
    rewrite Hd in E2. simpl in E2. apply String.eqb_eq in E2. contradiction. }
  apply blank_opt_false in E1 as [n [Hn Htn]]. apply blank_opt_false in E2 as [d [Hd Htd]].
  rewrite Hn, Hd. simpl.
  destruct (Nat.ltb 100 (String.length n)) eqn:E3;
    [| destruct (Nat.ltb 500 (String.length d)) eqn:E4].
  - apply Nat.ltb_lt in E3. split; [discriminate|].
    intros [n' [d' [Hn' [_ [Hl _]]]]]. injection Hn' as <-. lia.
  - apply Nat.ltb_lt in E4. split; [discriminate|].
    intros [n' [d' [_ [_ [_ [Hd' [_ Hl]]]]]]]. injection Hd' as <-. lia.
  - apply Nat.ltb_ge in E3. apply Nat.ltb_ge in E4. split; [|reflexivity].
    intros _. exists n, d. auto 7.
Qed.

Lemma validateDatasetRequest_none_iff d :
  validateDatasetRequest d = None
  <-> exists n desc cs,
        ds_name d = Some n /\ trim n <> "" /\ String.length n <= 100
        /\ ds_description d = Some desc /\ trim desc <> "" /\ String.length desc <= 500
        /\ ds_classes d = Some cs /\ 1 <= List.length cs <= 50
        /\ Forall class_ok cs /\ NoDup (class_names cs).
Proof.
  unfold validateDatasetRequest.
  destruct (blank_opt (ds_name d)) eqn:E1.
  { split; [discriminate|]. intros [n [desc [cs [Hn [Htn _]]]]].
    rewrite Hn in E1. simpl in E1. apply String.eqb_eq in E1. contradiction. }
  apply blank_opt_false in E1 as [n [Hn Htn]]. rewrite Hn. simpl.
  destruct (Nat.ltb (String.length n) 1 || Nat.ltb 100 (String.length n)) eqn:E2.
  { split; [discriminate|]. intros [n' [_ [_ [Hn' [_ [Hl _]]]]]]. injection Hn' as <-.
    apply orb_true_iff in E2 as [E2 | E2]; apply Nat.ltb_lt in E2; [|lia].
    destruct n; [exfalso; apply Htn; reflexivity | simpl in E2; lia]. }
  apply orb_false_elim in E2 as [_ E2]. apply Nat.ltb_ge in E2.
  destruct (blank_opt (ds_description d)) eqn:E3.
  { split; [discriminate|]. intros [n' [desc [cs [_ [_ [_ [Hd [Htd _]]]]]]]].
    rewrite Hd in E3. simpl in E3. apply String.eqb_eq in E3. contradiction. }
  apply blank_opt_false in E3 as [desc [Hd Htd]]. rewrite Hd. simpl.
  destruct (Nat.ltb 500 (String.length desc)) eqn:E4.
  { split; [discriminate|]. intros [n' [desc' [cs [_ [_ [_ [Hd' [_ [Hl _]]]]]]]]].
    injection Hd' as <-. apply Nat.ltb_lt in E4. lia. }
  apply Nat.ltb_ge in E4.
  destruct (ds_classes d) as [[| c cs] |] eqn:E5.
  - split; [discriminate|].
    intros [n' [desc' [cs [_ [_ [_ [_ [_ [_ [Hc [Hl _]]]]]]]]]]].
    injection Hc as <-. simpl in Hl. lia.
  - destruct (Nat.ltb 50 (List.length (c :: cs))) eqn:E6.
    { split; [discriminate|].
      intros [n' [desc' [cs' [_ [_ [_ [_ [_ [_ [Hc [Hl _]]]]]]]]]]].
      injection Hc as <-. apply Nat.ltb_lt in E6. lia. }
    apply Nat.ltb_ge in E6.
    destruct (first_error check_class 0 (c :: cs)) as [e |] eqn:E7.
    + split; [discriminate|].
      intros [n' [desc' [cs' [_ [_ [_ [_ [_ [_ [Hc [_ [Hok _]]]]]]]]]]]].
      injection Hc as <-.
      apply (first_error_none_iff check_class class_ok 0) in Hok;
        [congruence | exact check_class_none_iff].
    + apply (first_error_none_iff check_class class_ok 0) in E7;
        [| exact check_class_none_iff].
      destruct (duplicates (class_names (c :: cs))) as [| x xs] eqn:E8.
      * apply duplicates_nil_iff in E8. split; [|reflexivity]. intros _.
        exists n, desc, (c :: cs). repeat split; try assumption. simpl. lia.
      * split; [discriminate|].
        intros [n' [desc' [cs' [_ [_ [_ [_ [_ [_ [Hc [_ [_ Hnd]]]]]]]]]]]].
        injection Hc as <-. apply duplicates_nil_iff in Hnd. congruence.
  - split; [discriminate|].
    intros [n' [desc' [cs [_ [_ [_ [_ [_ [_ [Hc _]]]]]]]]]]. discriminate.
Qed.

End DatasetFacts2.

Module DatasetFacts3.
Import JS Service DatasetService StringFacts DatasetFacts DatasetFacts2.
Local Open Scope nat_scope.

Lemma is_integer_iff q : is_integer q = true <-> exists k, (q == inject_Z k)%Q.
Proof.
  destruct q as [n d]. unfold is_integer, Qeq. simpl. split.
  - intro H. apply Z.eqb_eq in H. exists (n / Z.pos d)%Z.
    pose proof (Z.div_mod n (Z.pos d)) as Hm. rewrite H in Hm. lia.
  - intros [k Hk]. apply Z.eqb_eq. rewrite Z.mul_1_r in Hk. rewrite Hk.
    apply Z.mod_mul. lia.
Qed.

Lemma validateDomainGeneration_none_iff domain c :
  validateDomainGeneration domain c = None
  <-> trim domain <> "" /\ 3 <= String.length domain <= 100
      /\ exists k, (c == inject_Z k)%Q /\ (2 <= k <= 20)%Z.
Proof.
  unfold validateDomainGeneration.
  destruct (String.eqb (trim domain) "") eqn:E1.
  { apply String.eqb_eq in E1. split; [discriminate | intros [H _]; contradiction]. }
  apply String.eqb_neq in E1.
  destruct (Nat.ltb (String.length domain) 3 || Nat.ltb 100 (String.length domain)) eqn:E2.
  { split; [discriminate|]. intros [_ [Hl _]].
    apply orb_true_iff in E2 as [E2 | E2]; apply Nat.ltb_lt in E2; lia. }
  apply orb_false_elim in E2 as [E2 E3]. apply Nat.ltb_ge in E2. apply Nat.ltb_ge in E3.
  destruct (negb (is_integer c) || negb (Qle_bool 2 c) || negb (Qle_bool c 20)) eqn:E4.
  - split; [discriminate|]. intros [_ [_ [k [Hk Hr]]]].
    assert (Hi : is_integer c = true) by (apply is_integer_iff; exists k; exact Hk).
    assert (H2 : Qle_bool 2 c = true).
    { apply Qle_bool_iff. rewrite Hk. change 2%Q with (inject_Z 2).
      rewrite <- Zle_Qle. lia. }
    assert (H20 : Qle_bool c 20 = true).
    { apply Qle_bool_iff. rewrite Hk. change 20%Q with (inject_Z 20).
      rewrite <- Zle_Qle. lia. }
    rewrite Hi, H2, H20 in E4. discriminate.
  - apply orb_false_elim in E4 as [E4 E6]. apply orb_false_elim in E4 as [E4 E5].
    apply negb_false_iff in E4, E5, E6.
    apply is_integer_iff in E4 as [k Hk]. apply Qle_bool_iff in E5, E6.
    split; [intros _ | reflexivity].
    split; [exact E1|]. split; [lia|]. exists k. split; [exact Hk|].
    rewrite Hk in E5, E6. change 2%Q with (inject_Z 2) in E5.
    change 20%Q with (inject_Z 20) in E6. rewrite <- Zle_Qle in E5, E6. lia.
Qed.
End DatasetFacts3.

Module DatasetCalls.
Import JS Service DatasetService StringFacts DatasetFacts DatasetFacts2 DatasetFacts3.
Local Open Scope nat_scope.

Lemma invalid_id_no_call {T} (client : DatasetService.Call -> ApiResponse T) id e :
  validateDatasetId id = Some e ->
  fst (loadDataset client id) = [] /\ fst (deleteDataset client id) = []
  /\ fst (generateEmbeddings client id) = [] /\ datasetExists client id = false
  /\ option_map err_details (error (snd (loadDataset client id)))
     = Some (Some "An unexpected error occurred")
  /\ option_map err_recoverable (error (snd (deleteDataset client id))) = Some false.
Proof.
  intro H. unfold datasetExists, loadDataset, deleteDataset, generateEmbeddings.
  rewrite H. cbn. repeat split; reflexivity.
Qed.

(** X3: for an id [validateDatasetId] rejects, [loadDataset], [deleteDataset] and [generateEmbeddings] send no request, [datasetExists] is false, the error details are the generic "An unexpected error occurred" (the validation message is lost), and the delete error is marked not recoverable. *)
Theorem invalid_dataset_id_not_requested {T} (client : DatasetService.Call -> ApiResponse T)
    id e :
  validateDatasetId id = Some e ->
  fst (loadDataset client id) = [] /\ fst (deleteDataset client id) = []
  /\ fst (generateEmbeddings client id) = [] /\ datasetExists client id = false
  /\ option_map err_details (error (snd (loadDataset client id)))
     = Some (Some "An unexpected error occurred")
  /\ option_map err_recoverable (error (snd (deleteDataset client id))) = Some false.
Proof. apply invalid_id_no_call. Qed.

Lemma invalid_dataset_id_not_requested_witness :
  validateDatasetId "../etc" =
    Some (createValidationError
            "Dataset ID can only contain letters, numbers, underscores, and hyphens" "id")
  /\ fst (loadDataset (fun _ => {| success := true; data := Some tt; error := None |})
            "../etc") = [].
Proof.
  split; [reflexivity|].
  apply (invalid_dataset_id_not_requested
           (fun _ => {| success := true; data := Some tt; error := None |}) "../etc"
           (createValidationError
              "Dataset ID can only contain letters, numbers, underscores, and hyphens" "id")).
  reflexivity.
Defined.

(** X5: [validateDomainGeneration] accepts exactly a non-blank domain of 3 to 100 characters with an integer class count between 2 and 20; [generateDataset] then posts exactly one request with 3 examples per class, and none otherwise. *)
Theorem generateDataset_spec {T} (client : DatasetService.Call -> ApiResponse T) domain c :
  (validateDomainGeneration domain c = None
   <-> trim domain <> "" /\ 3 <= String.length domain <= 100
       /\ exists k, (c == inject_Z k)%Q /\ (2 <= k <= 20)%Z)
  /\ fst (generateDataset client domain c)
     = match validateDomainGeneration domain c with
       | None => [PostGenerate "/wizard/generate-dataset" domain c 3]
       | Some _ => []
       end.
Proof.
  split; [apply validateDomainGeneration_none_iff|].
  unfold generateDataset. destruct (validateDomainGeneration domain c); reflexivity.
Qed.

(** X6: for a valid request, [saveDataset] sends one PUT to /datasets/<id> when the request carries an id (the id itself is not validated), and otherwise one POST to /datasets whose generated id passes [validateDatasetId] (timestamp below 2^49 ms), so that [loadDataset] can fetch it, with embeddingsGenerated false. *)
Theorem saveDataset_calls {T} (client : DatasetService.Call -> ApiResponse T) now d :
  validateDatasetRequest d = None ->
  (forall id, ds_id d = Some id -> fst (saveDataset client now d) = [PutDataset ("/datasets/" ++ id) d])
  /\ (ds_id d = None -> String.length (toString_radix 36 now) <= 49 ->
      exists body,
        fst (saveDataset client now d) = [PostDataset "/datasets" body]
        /\ cb_request body = d /\ cb_embeddingsGenerated body = false
        /\ validateDatasetId (cb_id body) = None
        /\ fst (loadDataset client (cb_id body)) = [Get ("/datasets/" ++ cb_id body)]).
Proof.
  intro H. unfold saveDataset. rewrite H. split.
  - intros id Hid. rewrite Hid. reflexivity.
  - intros Hn Hl. rewrite Hn. eexists. split; [reflexivity|].
    simpl. split; [reflexivity|]. split; [reflexivity|].
    assert (Hv := generateDatasetId_valid (opt_str (ds_name d)) now Hl).
    split; [exact Hv|]. unfold loadDataset. rewrite Hv. reflexivity.
Qed.

Definition update_req : DatasetRequest :=
  {| ds_id := Some "../etc"; ds_name := Some "Notes"; ds_description := Some "Clinical notes";
     ds_classes := Some [{| dc_name := Some "a"; dc_description := Some "first" |};
                         {| dc_name := Some "b"; dc_description := Some "second" |}] |}.

Lemma saveDataset_calls_witness :
  validateDatasetRequest update_req = None
  /\ fst (saveDataset (fun _ => {| success := true; data := Some tt; error := None |})
            0%Z update_req) = [PutDataset "/datasets/../etc" update_req].
Proof.
  split; [reflexivity|].
  apply (saveDataset_calls (fun _ => {| success := true; data := Some tt; error := None |})
           0%Z update_req); reflexivity.
Defined.

(** X4: [validateDatasetRequest] accepts exactly the requests with a non-blank name of at most 100 characters, a non-blank description of at most 500, 1 to 50 classes that each have a non-blank name (at most 100) and description (at most 500), and class names distinct after lower-casing; [saveDataset] sends nothing for any other request. *)
Theorem validateDatasetRequest_spec {T} (client : DatasetService.Call -> ApiResponse T) now d :
  (validateDatasetRequest d = None
   <-> exists n desc cs,
         ds_name d = Some n /\ trim n <> "" /\ String.length n <= 100
         /\ ds_description d = Some desc /\ trim desc <> "" /\ String.length desc <= 500
         /\ ds_classes d = Some cs /\ 1 <= List.length cs <= 50
         /\ Forall class_ok cs /\ NoDup (class_names cs))
  /\ (validateDatasetRequest d <> None -> fst (saveDataset client now d) = []).
Proof.
  split; [apply validateDatasetRequest_none_iff|].
  unfold saveDataset. destruct (validateDatasetRequest d); [reflexivity | congruence].
Qed.
End DatasetCalls.

Module AttributeFacts.
Import JS Service Rules AttributeService StringFacts DatasetFacts DatasetFacts2.
Local Open Scope nat_scope.

Lemma app_nil_iff {A} (l1 l2 : list A) : app l1 l2 = [] <-> l1 = [] /\ l2 = [].
Proof. destruct l1, l2; simpl; split; try intuition congruence; discriminate. Qed.

Lemma if_nil_iff {A} (b : bool) (x : A) : (if b then [x] else []) = [] <-> b = false.
Proof. destruct b; split; congruence. Qed.

Definition allowed_type (t : string) : Prop :=
  t = "text_match" \/ t = "numeric_range" \/ t = "boolean" \/ t = "custom".

Lemma type_test_iff t :
  (String.eqb t "text_match" || String.eqb t "numeric_range"
   || String.eqb t "boolean" || String.eqb t "custom") = true <-> allowed_type t.
Proof.
  unfold allowed_type. rewrite !orb_true_iff, !String.eqb_eq. tauto.
Qed.

Lemma condition_errors_nil_iff c :
  condition_errors c = []
  <-> blank_opt (cond_id c) = false
      /\ (exists d, description c = Some d /\ trim d <> "" /\ String.length d <= 200)
      /\ (exists t, cond_type c = Some t /\ allowed_type t).
Proof.
  unfold condition_errors, opt_blank. rewrite !app_nil_iff, !if_nil_iff.
  rewrite (blank_opt_false (description c)).
  split.
  - intros [Hi [[d [Hd Ht]] [Hty Hl]]]. split; [exact Hi|]. split.
    + exists d. split; [exact Hd|]. split; [exact Ht|]. rewrite Hd in Hl.
      destruct (Nat.ltb 200 (String.length d)) eqn:E; [discriminate|].
      apply Nat.ltb_ge in E. exact E.
    + destruct (cond_type c) as [t |]; [|discriminate].
      exists t. split; [reflexivity|]. apply type_test_iff.
      destruct (_ || _); [reflexivity | discriminate].
  - intros [Hi [[d [Hd [Ht Hl]]] [t [Hty Ha]]]].
    split; [exact Hi|]. split; [exists d; split; assumption|]. split.
    + rewrite Hty. apply type_test_iff in Ha. rewrite Ha. reflexivity.
    + rewrite Hd. apply Nat.ltb_ge in Hl. rewrite Hl. reflexivity.
Qed.

Lemma isValid_validation_of es : isValid (validation_of es) = true <-> es = [].
Proof. destruct es; simpl; split; congruence. Qed.

Lemma trim_head_not_ws c s : is_ws c = false -> trim (String c s) <> "".
Proof. intros Hc Ht. apply trim_empty_all_ws in Ht. simpl in Ht. rewrite Hc in Ht. discriminate. Qed.

Lemma generateConditionId_nonblank now r : blank_opt (Some (generateConditionId now r)) = false.
Proof. simpl. apply String.eqb_neq. apply trim_head_not_ws. reflexivity. Qed.

Lemma created_condition_valid_iff now r d t :
  allowed_type t ->
  condition_errors {| cond_id := Some (generateConditionId now r);
                      Rules.description := Some d; cond_type := Some t |} = []
  <-> trim d <> "" /\ String.length d <= 200.
Proof.
  intro Ht. rewrite condition_errors_nil_iff. simpl cond_id. simpl Rules.description. simpl cond_type.
  rewrite generateConditionId_nonblank. split.
  - intros [_ [[d' [Hd [Htr Hl]]] _]]. injection Hd as <-. split; assumption.
  - intros [Htr Hl]. split; [reflexivity|]. split; [exists d; auto|]. exists t; auto.
Qed.

(** What an element of a rule's [conditions] must satisfy for
    [validateAttributeRule]. *)
Definition item_ok (c : RuleItem) : Prop :=
  match c with
  | CondString s => trim s <> ""
  | CondObject o => condition_errors o = []
  | NestedRule _ _ => rule_errors c = []
  end.

Lemma flat_mapi_nil_iff {A B} (f : nat -> A -> list B) (P : A -> Prop) i l :
  (forall j x, f j x = [] <-> P x) -> (flat_mapi f i l = [] <-> Forall P l).
Proof.
  intro Hf. revert i. induction l as [| x l IH]; intro i; simpl.
  - split; [constructor | reflexivity].
  - rewrite app_nil_iff, IH, Hf. split.
    + intros [Hx Hl]. constructor; assumption.
    + intro H. inversion H; split; assumption.
Qed.

Lemma rule_item_nil_iff j c :
  (match c with
   | CondString s => if String.eqb (trim s) "" then [label "Condition" j ++ "Cannot be empty"] else []
   | CondObject o => match condition_errors o with
                     | [] => [] | es => [label "Condition" j ++ join ", " es] end
   | NestedRule _ _ => match rule_errors c with
                       | [] => [] | es => [label "Nested rule" j ++ join ", " es] end
   end) = [] <-> item_ok c.
Proof.
  destruct c as [s | o | op cs]; cbv beta iota delta [item_ok].
  - rewrite if_nil_iff. apply String.eqb_neq.
  - destruct (condition_errors o); split; congruence.
  - destruct (rule_errors (NestedRule op cs)); split; congruence.
Qed.

Lemma rule_errors_nil_iff op l :
  rule_errors (NestedRule op (Some l)) = []
  <-> bad_operator op = false /\ l <> [] /\ Forall item_ok l.
Proof.
  change (rule_errors (NestedRule op (Some l))) with
    (app (if bad_operator op then [operator_error] else [])
      (app (if no_conditions (Some l) then [empty_rule_error] else [])
        (flat_mapi (fun i c =>
            match c with
            | CondString s =>
                if String.eqb (trim s) "" then [label "Condition" i ++ "Cannot be empty"]
                else []
            | CondObject o =>
                match condition_errors o with
                | [] => []
                | es => [label "Condition" i ++ join ", " es]
                end
            | NestedRule _ _ =>
                match rule_errors c with
                | [] => []
                | es => [label "Nested rule" i ++ join ", " es]
                end
            end) 0 l))).
  rewrite !app_nil_iff, !if_nil_iff.
  rewrite (flat_mapi_nil_iff _ item_ok); [|intros; apply rule_item_nil_iff].
  destruct l; simpl; split; intuition congruence.
Qed.

Lemma and_or_errors cs : rule_errors (createAndRule cs) = rule_errors (createOrRule cs).
Proof. reflexivity. Qed.

(** Induction over a rule, with the hypothesis for each element of a
    nested [conditions] list. *)
Fixpoint RuleItem_nested_ind (P : RuleItem -> Prop)
    (fs : forall s, P (CondString s)) (fo : forall c, P (CondObject c))
    (fn : forall op cs, match cs with Some l => Forall P l | None => True end ->
                        P (NestedRule op cs))
    (r : RuleItem) : P r :=
  match r with
  | CondString s => fs s
  | CondObject c => fo c
  | NestedRule op cs =>
      fn op cs
        (match cs as o return match o with Some l => Forall P l | None => True end with
         | Some l =>
             (fix go (l : list RuleItem) : Forall P l :=
                match l with
                | [] => Forall_nil P
                | x :: l' => Forall_cons x (RuleItem_nested_ind P fs fo fn x) (go l')
                end) l
         | None => I
         end)
  end.

Lemma flat_mapi_nil_mono {A B} (f g : nat -> A -> list B) (P : A -> Prop) i l :
  Forall P l -> (forall j x, P x -> f j x = [] -> g j x = []) ->
  flat_mapi f i l = [] -> flat_mapi g i l = [].
Proof.
  intros HP Hfg. revert i. induction HP as [| x l Hx HP IH]; intros i; simpl; [auto|].
  rewrite !app_nil_iff. intros [H1 H2]. split; [eapply Hfg; eauto | apply IH; exact H2].
Qed.

Lemma rule_errors_editor_errors r : rule_errors r = [] -> editor_errors r = [].
Proof.
  induction r as [s | c | op cs IH] using RuleItem_nested_ind; [reflexivity | reflexivity|].
  simpl. rewrite !app_nil_iff. intros [H1 [H2 H3]]. split; [exact H1|]. split; [exact H2|].
  destruct cs as [l |]; [|reflexivity].
  revert H3. apply (flat_mapi_nil_mono _ _ _ 0 l IH).
  intros j x Px. destruct x as [s | o | op' cs'].
  - exact (fun h => h).
  - destruct (condition_errors o) eqn:E; [|discriminate]. intros _.
    revert E. unfold condition_errors. rewrite !app_nil_iff.
    intros [Hi [Hd _]]. apply if_nil_iff in Hi, Hd. unfold opt_blank in *.
    rewrite Hi, Hd. split; reflexivity.
  - destruct (rule_errors (NestedRule op' cs')) eqn:E; [|discriminate]. intros _.
    rewrite (Px eq_refl). reflexivity.
Qed.

(** X7: the errors of [validateAttributeCondition] are [condition_errors], and a condition is valid exactly when its id is non-blank, its description non-blank and at most 200 characters, and its type one of text_match, numeric_range, boolean, custom. *)
Theorem validateAttributeCondition_spec c :
  errors (validateAttributeCondition c) = condition_errors c
  /\ (isValid (validateAttributeCondition c) = true
      <-> blank_opt (cond_id c) = false
          /\ (exists d, description c = Some d /\ trim d <> "" /\ String.length d <= 200)
          /\ (exists t, cond_type c = Some t /\ allowed_type t)).
Proof.
  split; [reflexivity|]. unfold validateAttributeCondition.
  rewrite isValid_validation_of. apply condition_errors_nil_iff.
Qed.

(** X8: a condition built by [createTextMatchCondition], [createNumericRangeCondition] or [createBooleanCondition] is valid exactly when its description is non-blank and at most 200 characters long; the generated id is never blank. *)
Theorem created_conditions_valid now r d :
  (isValid (validateAttributeCondition (createTextMatchCondition now r d)) = true
   <-> trim d <> "" /\ String.length d <= 200)
  /\ (isValid (validateAttributeCondition (createNumericRangeCondition now r d)) = true
      <-> trim d <> "" /\ String.length d <= 200)
  /\ (isValid (validateAttributeCondition (createBooleanCondition now r d)) = true
      <-> trim d <> "" /\ String.length d <= 200).
Proof.
  unfold validateAttributeCondition. rewrite !isValid_validation_of.
  split; [|split]; apply created_condition_valid_iff; unfold allowed_type; auto.
Qed.

(** X9: [createAndRule] and [createOrRule] give rules with the same errors, valid exactly when the condition list is non-empty and each element is valid (a non-blank string, a valid condition, or a valid nested rule). *)
Theorem and_or_rules_valid cs :
  rule_errors (createAndRule cs) = rule_errors (createOrRule cs)
  /\ (isValid (validateAttributeRule (Some "AND") (Some cs)) = true
      <-> cs <> [] /\ Forall item_ok cs)
  /\ (isValid (validateAttributeRule (Some "OR") (Some cs)) = true
      <-> cs <> [] /\ Forall item_ok cs).
Proof.
  split; [apply and_or_errors|].
  unfold validateAttributeRule. rewrite !isValid_validation_of, !rule_errors_nil_iff.
  split; simpl; tauto.
Qed.

(** X10: every rule [validateAttributeRule] accepts is accepted by the editor's [validateRule], at any nesting depth; the converse fails, e.g. for a condition of type regex. *)
Theorem service_valid_editor_valid :
  (forall op cs, isValid (validateAttributeRule op cs) = true ->
                 isValid (validateRule op cs) = true)
  /\ (exists op cs, isValid (validateRule op cs) = true
                    /\ isValid (validateAttributeRule op cs) = false).
Proof.
  split.
  - intros op cs. unfold validateAttributeRule, validateRule.
    rewrite !isValid_validation_of. apply rule_errors_editor_errors.
  - exists (Some "AND"), (Some [CondObject {| cond_id := Some "c1";
                                             Rules.description := Some "mentions a date";
                                             cond_type := Some "regex" |}]).
    split; reflexivity.
Qed.
End AttributeFacts.

Module SaveFacts.
Import JS Service Rules AttributeService StringFacts DatasetFacts DatasetFacts2 AttributeFacts.
Local Open Scope nat_scope.

(** What [check_attribute] accepts. *)
Definition attribute_ok (a : ClassAttribute) : Prop :=
  blank_opt (classId a) = false /\ blank_opt (className a) = false
  /\ exists op cs, requiredAttributes a = Some (op, cs) /\ rule_errors (NestedRule op cs) = [].

Lemma check_attribute_none_iff i a : check_attribute i a = None <-> attribute_ok a.
Proof.
  unfold check_attribute, attribute_ok.
  destruct (blank_opt (classId a)); [split; [discriminate | intros [H _]; discriminate]|].
  destruct (blank_opt (className a)); [split; [discriminate | intros [_ [H _]]; discriminate]|].
  destruct (requiredAttributes a) as [[op cs] |].
  - unfold validateAttributeRule.
    destruct (isValid (validation_of (rule_errors (NestedRule op cs)))) eqn:E.
    + apply isValid_validation_of in E. split; [|reflexivity].
      intros _. split; [reflexivity|]. split; [reflexivity|]. exists op, cs. auto.
    + split; [discriminate|]. intros [_ [_ [op' [cs' [Heq Hr]]]]].
      injection Heq as <- <-. apply isValid_validation_of in Hr. congruence.
  - split; [discriminate|]. intros [_ [_ [op [cs [H _]]]]]. discriminate.
Qed.

Lemma validateSaveRequest_none_iff r :
  validateSaveRequest r = None
  <-> trim (sa_datasetId r) <> ""
      /\ exists l, attributes r = Some l /\ l <> [] /\ List.length l <= 50
                   /\ Forall attribute_ok l.
Proof.
  unfold validateSaveRequest, AttributeService.validateDatasetId.
  destruct (String.eqb (trim (sa_datasetId r)) "") eqn:E1.
  { apply String.eqb_eq in E1. split; [discriminate | intros [H _]; contradiction]. }
  apply String.eqb_neq in E1.
  destruct (attributes r) as [[| a l] |].
  - split; [discriminate|]. intros [_ [l [Hl [Hne _]]]]. injection Hl as <-. contradiction.
  - destruct (Nat.ltb 50 (List.length (a :: l))) eqn:E2.
    + split; [discriminate|]. intros [_ [l' [Hl [_ [Hlen _]]]]]. injection Hl as <-.
      apply Nat.ltb_lt in E2. lia.
    + apply Nat.ltb_ge in E2.
      rewrite (first_error_none_iff _ attribute_ok); [|intros; apply check_attribute_none_iff].
      split.
      * intro H. split; [exact E1|]. exists (a :: l). repeat split; auto; discriminate.
      * intros [_ [l' [Hl [_ [_ H]]]]]. injection Hl as <-. exact H.
  - split; [discriminate|]. intros [_ [l [Hl _]]]. discriminate.
Qed.

Lemma saveAttributes_calls {T} (client : AttributeService.Call -> ApiResponse T) r :
  (validateSaveRequest r <> None -> fst (saveAttributes client r) = [])
  /\ (forall l, validateSaveRequest r = None -> attributes r = Some l ->
       exists body, fst (saveAttributes client r)
                    = [PutAttributes ("/attributes/" ++ sa_datasetId r) (sa_datasetId r) body]
                    /\ map required_attributes body = map requiredAttributes l
                    /\ map saved_name body = map (fun a => DatasetService.opt_str (className a)) l).
Proof.
  unfold saveAttributes. split.
  - destruct (validateSaveRequest r); [reflexivity | congruence].
  - intros l Hv Hl. rewrite Hv, Hl. eexists. split; [reflexivity|].
    rewrite !map_map. split; reflexivity.
Qed.

(** X11: [validateSaveRequest] accepts exactly a non-blank dataset id with 1 to 50 attributes, each with a non-blank class id and class name and a rule [validateAttributeRule] accepts; [saveAttributes] then sends one PUT to /attributes/<id> carrying each attribute's class name and rule, and nothing otherwise. *)
Theorem validateSaveRequest_spec {T} (client : AttributeService.Call -> ApiResponse T) r :
  (validateSaveRequest r = None
   <-> trim (sa_datasetId r) <> ""
       /\ exists l, attributes r = Some l /\ l <> [] /\ List.length l <= 50
                    /\ Forall attribute_ok l)
  /\ (validateSaveRequest r <> None -> fst (saveAttributes client r) = [])
  /\ (forall l, validateSaveRequest r = None -> attributes r = Some l ->
       exists body, fst (saveAttributes client r)
                    = [PutAttributes ("/attributes/" ++ sa_datasetId r) (sa_datasetId r) body]
                    /\ map required_attributes body = map requiredAttributes l
                    /\ map saved_name body = map (fun a => DatasetService.opt_str (className a)) l).
Proof. split; [apply validateSaveRequest_none_iff | apply saveAttributes_calls]. Qed.
End SaveFacts.

Module WizardFacts.
Import JS Service Rules AttributeService Wizard.
Local Open Scope nat_scope.

Lemma same_class_iff a b : same_class a b = true <-> a = b.
Proof.
  destruct a as [x |], b as [y |]; simpl; split; try congruence.
  - intro H. apply String.eqb_eq in H. congruence.
  - intro H. injection H as ->. apply String.eqb_refl.
Qed.

Lemma same_class_refl a : same_class a a = true.
Proof. apply same_class_iff. reflexivity. Qed.

Lemma delete_all_gone_helper ds l cid :
  trim ds <> "" -> Forall (fun a => classId a = Some cid) l ->
  exists r, handleDeleteAttribute (Some ds) l cid = Some r
            /\ attributes r = Some []
            /\ validateSaveRequest r
               = Some (createValidationError "At least one attribute is required" "attributes").
Proof.
  intros Ht Hall. unfold handleDeleteAttribute, no_dataset.
  assert (Hne : String.eqb ds "" = false).
  { apply String.eqb_neq. intros ->. apply Ht. reflexivity. }
  rewrite Hne. simpl. eexists. split; [reflexivity|].
  assert (Hf : filter (fun a => negb (same_class (classId a) (Some cid))) l = []).
  { induction Hall as [| a l Ha _ IH]; [reflexivity|]. simpl. rewrite Ha, same_class_refl.
    exact IH. }
  rewrite Hf. split; [reflexivity|].
  unfold validateSaveRequest, AttributeService.validateDatasetId. simpl.
  apply String.eqb_neq in Ht. rewrite Ht. reflexivity.
Qed.

(** X12: deleting the class of the only remaining attributes with [handleDeleteAttribute] builds a request with an empty attribute list, which [validateSaveRequest] rejects with "At least one attribute is required". *)
Theorem delete_last_attribute_rejected ds l cid :
  trim ds <> "" -> Forall (fun a => classId a = Some cid) l ->
  exists r, handleDeleteAttribute (Some ds) l cid = Some r
            /\ attributes r = Some []
            /\ validateSaveRequest r
               = Some (createValidationError "At least one attribute is required" "attributes").
Proof. apply delete_all_gone_helper. Qed.

Definition depression_attr : ClassAttribute :=
  {| classId := Some "depression"; className := Some "Depression";
     requiredAttributes := Some (Some "AND", Some [CondString "low mood"]) |}.

Lemma delete_last_attribute_rejected_witness :
  trim "ds1" <> "" /\ Forall (fun a => classId a = Some "depression") [depression_attr]
  /\ exists r, handleDeleteAttribute (Some "ds1") [depression_attr] "depression" = Some r
               /\ attributes r = Some []
               /\ validateSaveRequest r
                  = Some (createValidationError "At least one attribute is required"
                            "attributes").
Proof.
  split; [discriminate|]. split; [repeat constructor|].
  apply delete_last_attribute_rejected; [discriminate | repeat constructor].
Defined.

Lemma existsb_false_forall (f : ClassAttribute -> bool) l :
  existsb f l = false -> forall x, In x l -> f x = false.
Proof.
  intros H x Hx. destruct (f x) eqn:E; [|reflexivity].
  assert (existsb f l = true) by (apply existsb_exists; eauto). congruence.
Qed.

Lemma upsert_keys l a :
  map classId (upsert l a)
  = if existsb (fun x => same_class (classId x) (classId a)) l then map classId l
    else app (map classId l) [classId a].
Proof.
  unfold upsert.
  assert (Hm : map classId (map (fun x => if same_class (classId x) (classId a) then a else x) l)
               = map classId l).
  { rewrite map_map. apply map_ext. intro x.
    destruct (same_class (classId x) (classId a)) eqn:E; [|reflexivity].
    apply same_class_iff in E. congruence. }
  destruct (existsb _ l); [exact Hm|]. rewrite map_app, Hm. reflexivity.
Qed.

Lemma upsert_in l a : In a (upsert l a).
Proof.
  unfold upsert. destruct (existsb _ l) eqn:E.
  - apply existsb_exists in E as [x [Hx Hs]]. apply in_map_iff. exists x. rewrite Hs. auto.
  - apply in_or_app. right. left. reflexivity.
Qed.

Lemma upsert_keeps_others l a x :
  In x l -> same_class (classId x) (classId a) = false -> In x (upsert l a).
Proof.
  intros Hx Hs. unfold upsert.
  assert (Hin : In x (map (fun y => if same_class (classId y) (classId a) then a else y) l)).
  { apply in_map_iff. exists x. rewrite Hs. auto. }
  destruct (existsb _ l); [exact Hin | apply in_or_app; left; exact Hin].
Qed.

Lemma upsert_only l a y :
  In y (upsert l a) -> y = a \/ (In y l /\ same_class (classId y) (classId a) = false).
Proof.
  unfold upsert. intro H.
  assert (Hm : In y (map (fun x => if same_class (classId x) (classId a) then a else x) l) ->
               y = a \/ (In y l /\ same_class (classId y) (classId a) = false)).
  { intro Hy. apply in_map_iff in Hy as [x [Hxy Hx]].
    destruct (same_class (classId x) (classId a)) eqn:E; [left; auto | right; subst; auto]. }
  destruct (existsb _ l); [apply Hm; exact H|].
  apply in_app_or in H as [H | [H | []]]; [apply Hm; exact H | left; auto].
Qed.

Lemma upsert_nodup l a : NoDup (map classId l) -> NoDup (map classId (upsert l a)).
Proof.
  intro H. rewrite upsert_keys. destruct (existsb _ l) eqn:E; [exact H|].
  apply NoDup_app; [exact H | repeat constructor; simpl; tauto|].
  intros k Hk [Hk' | []]. subst k. apply in_map_iff in Hk as [x [Hx Hxl]].
  pose proof (existsb_false_forall _ l E x Hxl) as Hs. cbv beta in Hs. rewrite Hx, same_class_refl in Hs.
  discriminate.
Qed.

(** X13: with a dataset selected, [handleSaveAttribute] builds a request whose attributes contain the saved attribute, keep every attribute of another class, contain nothing else, and keep class ids distinct when they were. *)
Theorem handleSaveAttribute_upsert ds l a :
  no_dataset ds = false ->
  exists r, handleSaveAttribute ds l a = Some r /\ sa_datasetId r = DatasetService.opt_str ds
    /\ exists l', attributes r = Some l'
    /\ In a l'
    /\ (forall x, In x l -> same_class (classId x) (classId a) = false -> In x l')
    /\ (forall y, In y l' -> y = a \/ (In y l /\ same_class (classId y) (classId a) = false))
    /\ (NoDup (map classId l) -> NoDup (map classId l')).
Proof.
  intro Hd. unfold handleSaveAttribute. rewrite Hd. eexists. split; [reflexivity|].
  split; [reflexivity|]. exists (upsert l a). split; [reflexivity|].
  split; [apply upsert_in|]. split; [intros; apply upsert_keeps_others; assumption|].
  split; [apply upsert_only | apply upsert_nodup].
Qed.

Lemma handleSaveAttribute_upsert_witness :
  no_dataset (Some "ds1") = false
  /\ exists r, handleSaveAttribute (Some "ds1") [] depression_attr = Some r
    /\ sa_datasetId r = "ds1"
    /\ exists l', attributes r = Some l'
    /\ In depression_attr l'
    /\ (forall x, In x [] -> same_class (classId x) (classId depression_attr) = false -> In x l')
    /\ (forall y, In y l' -> y = depression_attr
                             \/ (In y [] /\ same_class (classId y) (classId depression_attr) = false))
    /\ (NoDup (map classId []) -> NoDup (map classId l')).
Proof.
  split; [reflexivity|]. apply (handleSaveAttribute_upsert (Some "ds1") [] depression_attr).
  reflexivity.
Defined.

Lemma upsert_idem l a : upsert (upsert l a) a = upsert l a.
Proof.
  assert (Hex : existsb (fun x => same_class (classId x) (classId a)) (upsert l a) = true).
  { apply existsb_exists. exists a. split; [apply upsert_in | apply same_class_refl]. }
  unfold upsert at 1. rewrite Hex.
  rewrite <- (map_id (upsert l a)) at 2. apply map_ext_in. intros y Hy.
  destruct (same_class (classId y) (classId a)) eqn:E; [|reflexivity].
  destruct (upsert_only l a y Hy) as [-> | [_ Hs]]; [reflexivity | congruence].
Qed.

Lemma filter_upsert l a cid :
  classId a = Some cid ->
  filter (fun x => negb (same_class (classId x) (Some cid))) (upsert l a)
  = filter (fun x => negb (same_class (classId x) (Some cid))) l.
Proof.
  intro Ha. unfold upsert. rewrite Ha.
  assert (Hm : filter (fun x => negb (same_class (classId x) (Some cid)))
                 (map (fun x => if same_class (classId x) (Some cid) then a else x) l)
               = filter (fun x => negb (same_class (classId x) (Some cid))) l).
  { induction l as [| x l IH]; [reflexivity|]. simpl.
    destruct (same_class (classId x) (Some cid)) eqn:E; simpl.
    - rewrite Ha, same_class_refl. exact IH.
    - rewrite E. simpl. rewrite IH. reflexivity. }
  destruct (existsb _ l); [exact Hm|].
  rewrite filter_app, Hm. simpl. rewrite Ha, same_class_refl. apply app_nil_r.
Qed.

(** X14: saving an attribute twice gives the same attribute list as saving it once, and deleting its class after saving it gives the same request as deleting the class from the original list. *)
Theorem save_then_delete ds l a cid :
  classId a = Some cid ->
  upsert (upsert l a) a = upsert l a
  /\ option_map attributes (handleSaveAttribute ds (upsert l a) a)
     = option_map attributes (handleSaveAttribute ds l a)
  /\ handleDeleteAttribute ds (upsert l a) cid = handleDeleteAttribute ds l cid.
Proof.
  intro Ha. split; [apply upsert_idem|]. split.
  - unfold handleSaveAttribute. rewrite upsert_idem. reflexivity.
  - unfold handleDeleteAttribute. rewrite (filter_upsert l a cid Ha). reflexivity.
Qed.

Lemma save_then_delete_witness :
  classId depression_attr = Some "depression"
  /\ handleDeleteAttribute (Some "ds1") (upsert [] depression_attr) "depression"
     = handleDeleteAttribute (Some "ds1") [] "depression".
Proof.
  split; [reflexivity|].
  apply (save_then_delete (Some "ds1") [] depression_attr "depression"). reflexivity.
Defined.
End WizardFacts.

Module StoreActionFacts.
Import Service Store StoreActions.
Local Open Scope nat_scope.

Lemma addToHistory_bound r s : List.length (resultHistory (addToHistory r s)) <= 50.
Proof. apply firstn_le_length. Qed.

Lemma store_classify_history code msg fallback resp s :
  List.length (resultHistory s) <= 50 ->
  List.length (resultHistory (fst (store_classify code msg fallback resp s))) <= 50.
Proof.
  intro H. unfold store_classify. destruct (success resp); [apply addToHistory_bound | exact H].
Qed.

Lemma step_history s a :
  List.length (resultHistory s) <= 50 -> List.length (resultHistory (step s a)) <= 50.
Proof.
  intro H. destruct a; unfold step;
    try (apply store_classify_history; exact H); try apply addToHistory_bound;
    try exact H; cbn [resultHistory clearHistory reset List.length]; lia.
Qed.

Lemma run_history s acts :
  List.length (resultHistory s) <= 50 -> List.length (resultHistory (run s acts)) <= 50.
Proof.
  unfold run. revert s. induction acts as [| a acts IH]; intros s H; simpl; [exact H|].
  apply IH. apply step_history. exact H.
Qed.

(** X15: the store's result history never holds more than 50 entries, from the initial state or any state within the bound, whatever actions run. *)
Theorem history_bounded :
  (forall acts, List.length (resultHistory (run initial acts)) <= 50)
  /\ (forall s acts, List.length (resultHistory s) <= 50 ->
                     List.length (resultHistory (run s acts)) <= 50).
Proof.
  split; [intro acts; apply run_history; simpl; lia | exact run_history].
Qed.

Lemma store_classify_flags code msg fallback resp s :
  isClassifying (fst (store_classify code msg fallback resp s)) = false
  /\ (st_error (fst (store_classify code msg fallback resp s)) = None <-> success resp = true)
  /\ (success resp = true -> snd (store_classify code msg fallback resp s) = Resolved (data resp)).
Proof.
  unfold store_classify. destruct (success resp); simpl.
  - repeat split; reflexivity.
  - split; [reflexivity|]. split; [split; discriminate | discriminate].
Qed.

Lemma run_not_classifying s acts :
  isClassifying s = false -> (forall a, In a acts -> a <> SetClassifying true) ->
  isClassifying (run s acts) = false.
Proof.
  unfold run. revert s. induction acts as [| a acts IH]; intros s Hs Ha; simpl; [exact Hs|].
  apply IH; [|intros; apply Ha; right; assumption].
  destruct a; unfold step; try exact Hs; try reflexivity;
    try apply (store_classify_flags _ _ _ _ s).
  destruct b; [exfalso; apply (Ha (SetClassifying true)); [left|]; reflexivity | reflexivity].
Qed.

(** X16: a classify action of the store always ends with [isClassifying] false, with [error] cleared exactly when the service call succeeded (resolving to its data); from the initial state, [isClassifying] stays false unless some action sets it to true. *)
Theorem classify_clears_busy :
  (forall code msg fallback resp s,
     isClassifying (fst (store_classify code msg fallback resp s)) = false
     /\ (st_error (fst (store_classify code msg fallback resp s)) = None
         <-> success resp = true)
     /\ (success resp = true ->
         snd (store_classify code msg fallback resp s) = Resolved (data resp)))
  /\ (forall acts, (forall a, In a acts -> a <> SetClassifying true) ->
       isClassifying (run initial acts) = false).
Proof.
  split; [exact store_classify_flags|].
  intros acts Ha. apply run_not_classifying; [reflexivity | exact Ha].
Qed.
End StoreActionFacts.

Module OptionsFacts2.
Import Service Options OptionsFacts.

Lemma handle_validation_on c ev c' :
  handle c ev = Some c' -> useAttributeValidation c' = true ->
  useAttributeValidation c = true \/ ev = ToggleAttributeValidation true.
Proof.
  intros H Hv. destruct ev as [m | e | m | v |]; simpl in H.
  - injection H as <-. left. exact Hv.
  - destruct (useAttributeValidation c) eqn:E; [left; reflexivity|].
    destruct e; [right; reflexivity | discriminate].
  - injection H as <-. left. exact Hv.
  - injection H as <-. left. exact Hv.
  - destruct (useAttributeValidation c); [injection H as <-; discriminate | discriminate].
Qed.

Lemma run_validation_on c evs :
  useAttributeValidation (run c evs) = true ->
  useAttributeValidation c = true \/ In (ToggleAttributeValidation true) evs.
Proof.
  revert c. induction evs as [| ev evs IH]; intros c H; simpl in H; [left; exact H|].
  destruct (handle c ev) as [c' |] eqn:E.
  - destruct (IH c' H) as [H' | H'].
    + destruct (handle_validation_on c ev c' E H') as [H'' | ->]; [left; exact H'' | right; left; reflexivity].
    + right; right; exact H'.
  - destruct (IH c H) as [H' | H']; [left; exact H' | right; right; exact H'].
Qed.

(** X17: the options control never turns attribute validation on except through a toggle made while attributes exist. *)
Theorem validation_needs_attributes c evs :
  useAttributeValidation c = false ->
  useAttributeValidation (run c evs) = true -> In (ToggleAttributeValidation true) evs.
Proof.
  intros Hc H. destruct (run_validation_on c evs H) as [H' | H']; [congruence | exact H'].
Qed.

Lemma validation_needs_attributes_witness :
  useAttributeValidation Store.defaultConfig = false
  /\ useAttributeValidation (run Store.defaultConfig [ToggleAttributeValidation true]) = true
  /\ In (ToggleAttributeValidation true) [ToggleAttributeValidation true].
Proof.
  split; [reflexivity|]. split; [reflexivity|].
  apply (validation_needs_attributes Store.defaultConfig [ToggleAttributeValidation true]);
    reflexivity.
Defined.
End OptionsFacts2.

Module PDFFacts.
Import JS Service PDFContent.

Lemma validatePDFFile_none_iff f :
  validatePDFFile f = None
  <-> exists fi, f = Some fi /\ endsWith (toLowerCase (name fi)) ".pdf" = true
                 /\ size fi <> 0%Z /\ (size fi <= maxSize)%Z.
Proof.
  destruct f as [fi |]; simpl.
  - destruct (endsWith (toLowerCase (name fi)) ".pdf") eqn:E1; simpl.
    + destruct (size fi >? maxSize)%Z eqn:E2.
      * split; [discriminate|]. intros [fi' [Hf [_ [_ Hs]]]]. injection Hf as <-.
        apply Z.gtb_lt in E2. lia.
      * destruct (size fi =? 0)%Z eqn:E3.
        -- split; [discriminate|]. intros [fi' [Hf [_ [Hs _]]]]. injection Hf as <-.
           apply Z.eqb_eq in E3. contradiction.
        -- split; [intros _ | reflexivity]. exists fi. split; [reflexivity|].
           split; [exact E1|]. rewrite Z.gtb_ltb in E2. apply Z.ltb_ge in E2. apply Z.eqb_neq in E3. lia.
    + split; [discriminate|]. intros [fi' [Hf [He _]]]. injection Hf as <-. congruence.
  - split; [discriminate|]. intros [fi' [Hf _]]. discriminate.
Qed.

(** X18: [extractPDFContent] succeeds exactly when the file is present, its lower-cased name ends in .pdf and its size is non-zero and at most 50 MB; it then returns the fixed mock result, and otherwise an error whose details are the generic "An unexpected error occurred". *)
Theorem extractPDFContent_spec f :
  (success (extractPDFContent f) = true
   <-> exists fi, f = Some fi /\ endsWith (toLowerCase (name fi)) ".pdf" = true
                  /\ size fi <> 0%Z /\ (size fi <= maxSize)%Z)
  /\ (success (extractPDFContent f) = true -> data (extractPDFContent f) = Some mockResult)
  /\ (success (extractPDFContent f) = false ->
      option_map err_details (error (extractPDFContent f))
      = Some (Some "An unexpected error occurred")).
Proof.
  rewrite <- validatePDFFile_none_iff. unfold extractPDFContent.
  destruct (validatePDFFile f); simpl.
  - split; [split; discriminate|]. split; [discriminate | reflexivity].
  - split; [split; reflexivity|]. split; [reflexivity | discriminate].
Qed.

Lemma assoc_get_set_prop l k v k' :
  assoc_get (set_prop l k v) k' = if String.eqb k' k then v else assoc_get l k'.
Proof.
  induction l as [| [k0 v0] l IH]; simpl.
  - destruct (String.eqb k' k); reflexivity.
  - destruct (String.eqb k k0) eqn:E; simpl.
    + apply String.eqb_eq in E. subst k0. destruct (String.eqb k' k); reflexivity.
    + rewrite IH. destruct (String.eqb k' k0) eqn:E'.
      * apply String.eqb_eq in E'. subst k0.
        destruct (String.eqb k' k) eqn:E''; [|reflexivity].
        apply String.eqb_eq in E''. subst. rewrite String.eqb_refl in E. discriminate.
      * destruct (String.eqb k' k); reflexivity.
Qed.

Lemma set_prop_keys l k v :
  map fst (set_prop l k v)
  = if existsb (fun p => String.eqb k (fst p)) l then map fst l else app (map fst l) [k].
Proof.
  induction l as [| [k0 v0] l IH]; simpl; [reflexivity|].
  destruct (String.eqb k k0); simpl; [reflexivity|]. rewrite IH.
  destruct (existsb _ l); reflexivity.
Qed.

(** X19: the metadata of a PDF result is the back end's metadata object with key pdf_metadata set to the back end's pdf_metadata, every other key unchanged, and pdf_metadata appended as the last key unless it was already present. *)
Theorem pdf_result_metadata b :
  exists l, res_metadata (pdf_result b) = JObj l
  /\ assoc_get l "pdf_metadata" = pdf_metadata b
  /\ (forall k, k <> "pdf_metadata" -> assoc_get l k = assoc_get (spread (metadata b)) k)
  /\ map fst l = (if existsb (fun p => String.eqb "pdf_metadata" (fst p)) (spread (metadata b))
                  then map fst (spread (metadata b))
                  else app (map fst (spread (metadata b))) ["pdf_metadata"]).
Proof.
  eexists. split; [reflexivity|].
  split; [rewrite assoc_get_set_prop; reflexivity|].
  split; [|apply set_prop_keys].
  intros k Hk. rewrite assoc_get_set_prop. apply String.eqb_neq in Hk. rewrite Hk. reflexivity.
Qed.
End PDFFacts.

Module ClassIdFacts.
Import JS Service DatasetService AttributeService StringFacts DatasetFacts.

Lemma lower_char_idem c : lower_char (lower_char c) = lower_char c.
Proof. revert c. all_ascii; reflexivity. Qed.

Lemma lower_char_ws c : is_ws c = true -> lower_char c = c.
Proof. revert c. all_ascii; intros; first [reflexivity | discriminate]. Qed.

Lemma is_ws_lower_char c : is_ws (lower_char c) = is_ws c.
Proof. revert c. all_ascii; reflexivity. Qed.

Lemma toLowerCase_idem s : toLowerCase (toLowerCase s) = toLowerCase s.
Proof. induction s as [| c s IH]; simpl; [reflexivity|]. rewrite lower_char_idem, IH. reflexivity. Qed.

Lemma toLowerCase_replace_ws_runs b s :
  toLowerCase (replace_ws_runs b s) = replace_ws_runs b (toLowerCase s).
Proof.
  revert b. induction s as [| c s IH]; intro b; simpl; [reflexivity|].
  rewrite is_ws_lower_char. destruct (is_ws c) eqn:E.
  - destruct b; simpl; rewrite IH; reflexivity.
  - simpl. rewrite IH. reflexivity.
Qed.

Lemma replace_ws_runs_no_ws b s :
  all_chars (fun c => negb (is_ws c)) s = true -> replace_ws_runs b s = s.
Proof.
  revert b. induction s as [| c s IH]; intros b H; simpl; [reflexivity|].
  simpl in H. apply andb_prop in H as [Hc H]. apply negb_true_iff in Hc. rewrite Hc.
  rewrite (IH false H). reflexivity.
Qed.

Lemma replace_ws_runs_ws_free b s :
  all_chars (fun c => negb (is_ws c)) (replace_ws_runs b s) = true.
Proof.
  apply replace_ws_runs_all; [reflexivity|].
  induction s as [| c s IH]; simpl; [reflexivity|].
  rewrite IH. destruct (is_ws c); reflexivity.
Qed.

(** X20: the class id computed by [getAttributes] ([class_id]) contains no white space and is unchanged when the computation is applied again. *)
Theorem class_id_idempotent n :
  class_id (class_id n) = class_id n
  /\ all_chars (fun c => negb (is_ws c)) (class_id n) = true.
Proof.
  unfold class_id, replace_ws. split; [|apply replace_ws_runs_ws_free].
  rewrite toLowerCase_replace_ws_runs, toLowerCase_idem.
  apply replace_ws_runs_no_ws. apply replace_ws_runs_ws_free.
Qed.

Lemma keep_chars_id_iff keep s : keep_chars keep s = s <-> all_chars keep s = true.
Proof.
  split.
  - intro H. rewrite <- H. apply keep_chars_all.
  - induction s as [| c s IH]; intro H; simpl; [reflexivity|].
    simpl in H. apply andb_prop in H as [Hc H]. rewrite Hc, IH by exact H. reflexivity.
Qed.

Lemma replace_ws_runs_all_inv (q : ascii -> bool) b s :
  all_chars q (replace_ws_runs b s) = true -> all_chars (fun c => is_ws c || q c) s = true.
Proof.
  revert b. induction s as [| c s IH]; intros b H; simpl; [reflexivity|].
  simpl in H. destruct (is_ws c) eqn:E; simpl.
  - destruct b; [exact (IH true H)|]. simpl in H. apply andb_prop in H as [_ H]. exact (IH true H).
  - simpl in H. apply andb_prop in H as [Hc H]. rewrite Hc. exact (IH false H).
Qed.

(** X21: [generateAttributes] and [getAttributes] compute the same class id for a name exactly when the lower-cased name contains only a-z, 0-9, _ and white space; e.g. "Major Depression (MDD)" gives major_depression_mdd and major_depression_(mdd). *)
Theorem generated_class_id_agrees n :
  generated_class_id n = class_id n
  <-> all_chars (fun c => is_ws c || gen_char c) (toLowerCase n) = true.
Proof.
  unfold generated_class_id. rewrite keep_chars_id_iff.
  change (fun c => is_lower c || is_digit c || Ascii.eqb c "_"%char) with gen_char.
  unfold class_id, replace_ws. split; [apply replace_ws_runs_all_inv|].
  apply replace_ws_runs_all. reflexivity.
Qed.

Lemma generated_class_id_example :
  generated_class_id "Major Depression (MDD)" = "major_depression_mdd"
  /\ class_id "Major Depression (MDD)" = "major_depression_(mdd)".
Proof. split; reflexivity. Qed.
End ClassIdFacts.
